(** * simple-ortho: numeric utilities and the distortion remapping engine

    A shallow embedding of [simple_ortho/utils.py] and
    [simple_ortho/enums.py].

    - Python exceptions are an error monad ([Py.result]).
    - Python/NumPy floats are an interface ([PyFloat]) with two
      interpretations: exact rational arithmetic ([Q]) and IEEE-754
      binary64 ([spec_float] at precision 53, the bit-exact reading).
    - NumPy arrays are a shape with a flat, row-major buffer ([Np.ndarray]).
*)

From Stdlib Require Import ZArith QArith Qround List Bool Lia String.
From Stdlib Require Import SpecFloat.
Import ListNotations.

Set Implicit Arguments.

(* ================================================================= *)
(** ** Python exceptions *)

Module Py.

Inductive exn : Type :=
| ValueError (msg : string)
| OverflowError (msg : string)
| IndexError (msg : string).

Inductive result (A : Type) : Type :=
| Ok (a : A)
| Err (e : exn).
Arguments Ok {A} a.
Arguments Err {A} e.

Definition bind {A B} (r : result A) (k : A -> result B) : result B :=
  match r with
  | Ok a => k a
  | Err e => Err e
  end.

Definition is_ok {A} (r : result A) : bool :=
  match r with Ok _ => true | Err _ => false end.

(** [raises_ValueError r]: evaluating [r] ends in a [ValueError]. *)
Definition raises_ValueError {A} (r : result A) : Prop :=
  exists msg, r = Err (ValueError msg).

End Py.
Import Py.

Declare Scope py_scope.
Delimit Scope py_scope with py.
Notation "x <- c ;; k" := (Py.bind c (fun x => k))
  (at level 61, c at next level, right associativity) : py_scope.
Notation "' p <- c ;; k" := (Py.bind c (fun x => let p := x in k))
  (at level 61, p pattern, c at next level, right associativity) : py_scope.
Local Open Scope py_scope.

(* ================================================================= *)
(** ** Floating-point interface *)

(** The float operations the two source files use.  [R] is the type of
    a Python [float] / NumPy [float64]. *)
Class PyFloat (R : Type) : Type := {
  of_int : Z -> R;                  (* int -> float promotion *)
  fadd : R -> R -> R;               (* x + y *)
  fsub : R -> R -> R;               (* x - y *)
  fmul : R -> R -> R;               (* x * y *)
  fdiv : R -> R -> R;               (* x / y, y a non-zero literal *)
  feqb : R -> R -> bool;            (* x == y *)
  fgeb : R -> R -> bool;            (* x >= y *)
  isnan : R -> bool;                (* np.isnan on one element *)
  floor : R -> R;                   (* np.floor *)
  ceil : R -> R;                    (* np.ceil *)
  divmod : R -> R -> R * R;         (* np.divmod *)
  fmod : R -> R -> R;               (* x % y *)
  astype_int : R -> Z;              (* x.astype('int') *)
  py_int : R -> result Z;           (* int(x) *)
  astype_float32 : R -> R           (* x.astype('float32') *)
}.

(* ----------------------------------------------------------------- *)
(** *** Exact arithmetic *)

(** Every finite binary64 value is a rational; this instance computes
    on those rationals without rounding (the conversion to float32
    included).  It has no NaN and no infinities. *)

Definition Qtrunc (x : Q) : Z :=
  if Qle_bool 0 x then Qfloor x else Qceiling x.

Definition Qdivmod (x y : Q) : Q * Q :=
  let q := Qfloor (x / y) in (inject_Z q, x - inject_Z q * y).

#[export] Instance PyFloat_Q : PyFloat Q := {|
  of_int := inject_Z;
  fadd := Qplus;
  fsub := Qminus;
  fmul := Qmult;
  fdiv := Qdiv;
  feqb := Qeq_bool;
  fgeb := fun x y => Qle_bool y x;
  isnan := fun _ => false;
  floor := fun x => inject_Z (Qfloor x);
  ceil := fun x => inject_Z (Qceiling x);
  divmod := Qdivmod;
  fmod := fun x y => snd (Qdivmod x y);
  astype_int := Qtrunc;
  py_int := fun x => Ok (Qtrunc x);
  astype_float32 := fun x => x
|}.

(* ----------------------------------------------------------------- *)
(** *** IEEE-754 binary64 *)

(** The operations of CPython and NumPy on doubles, over the standard
    library's specification of IEEE-754 arithmetic. *)
Module B64.

Definition prec : Z := 53.
Definition emax : Z := 1024.

Definition t : Type := spec_float.

Definition nan : t := S754_nan.

Definition add : t -> t -> t := SFadd prec emax.
Definition sub : t -> t -> t := SFsub prec emax.
Definition mul : t -> t -> t := SFmul prec emax.
Definition div : t -> t -> t := SFdiv prec emax.

(** Conversion of an integer, rounding to nearest-even. *)
Definition of_Z (z : Z) : t := binary_normalize prec emax z 0 false.

(** The double nearest to the decimal literal [n / d]. *)
Definition of_dec (n : Z) (d : positive) : t := div (of_Z n) (of_Z (Zpos d)).

Definition is_nan (x : t) : bool :=
  match x with S754_nan => true | _ => false end.

Definition is_zero (x : t) : bool :=
  match x with S754_zero _ => true | _ => false end.

Definition sign (x : t) : bool :=
  match x with
  | S754_zero s | S754_infinity s | S754_finite s _ _ => s
  | S754_nan => false
  end.

(** C [copysign(0, y)]. *)
Definition zero_like (y : t) : t := S754_zero (sign y).

(** Rounding to an integral value; [rnd v p] rounds the rational
    [v / p] to an integer. *)
Definition rint (rnd : Z -> Z -> Z) (x : t) : t :=
  match x with
  | S754_finite s m e =>
      if (0 <=? e)%Z then x
      else binary_normalize prec emax
             (rnd (cond_Zopp s (Zpos m)) (2 ^ (- e))%Z) 0 s
  | _ => x
  end.

Definition floor : t -> t := rint Z.div.
Definition ceil : t -> t := rint (fun v p => (- ((- v) / p))%Z).

(** Truncation toward zero of a finite value. *)
Definition trunc_Z (x : t) : option Z :=
  match x with
  | S754_zero _ => Some 0%Z
  | S754_finite s m e =>
      let v := cond_Zopp s (Zpos m) in
      Some (if (0 <=? e)%Z then v * 2 ^ e else Z.quot v (2 ^ (- e)))%Z
  | _ => None
  end.

(** C [fmod]: the exact remainder of [x / y], with the sign of [x]. *)
Definition c_fmod (x y : t) : t :=
  match x, y with
  | S754_nan, _ | _, S754_nan => S754_nan
  | S754_infinity _, _ => S754_nan
  | _, S754_zero _ => S754_nan
  | _, S754_infinity _ => x
  | S754_zero _, _ => x
  | S754_finite sx mx ex, S754_finite _ my ey =>
      let e := Z.min ex ey in
      let a := (Zpos mx * 2 ^ (ex - e))%Z in
      let b := (Zpos my * 2 ^ (ey - e))%Z in
      binary_normalize prec emax (cond_Zopp sx (a mod b)) e sx
  end.

Definition ltb (x y : t) : bool := SFltb x y.

(** [npy_divmod] of NumPy's [npy_math]: floor division and the
    remainder with the sign of the divisor. *)
Definition npy_divmod (a b : t) : t * t :=
  let mod0 := c_fmod a b in
  if is_zero b then (div a b, mod0)
  else
    let div0 := div (sub a mod0) b in
    let '(div1, mod1) :=
      if negb (is_zero mod0) then
        if negb (Bool.eqb (ltb b (of_Z 0)) (ltb mod0 (of_Z 0)))
        then (sub div0 (of_Z 1), add mod0 b)
        else (div0, mod0)
      else (div0, zero_like b) in
    let floordiv :=
      if negb (is_zero div1) then
        let fl := floor div1 in
        if ltb (of_dec 5 10) (sub div1 fl) then add fl (of_Z 1) else fl
      else zero_like (div a b) in
    (floordiv, mod1).

Definition int64_min : Z := (- 2 ^ 63)%Z.

(** [astype('int')] on x86-64: truncation; a value that has no
    [int64] converts to the most negative one. *)
Definition to_int64 (x : t) : Z :=
  match trunc_Z x with
  | Some z => if ((int64_min <=? z) && (z <? 2 ^ 63))%Z then z else int64_min
  | None => int64_min
  end.

(** Python [int(x)]. *)
Definition to_pyint (x : t) : result Z :=
  match x with
  | S754_nan => Err (ValueError "cannot convert float NaN to integer")
  | S754_infinity _ =>
      Err (OverflowError "cannot convert float infinity to integer")
  | _ => match trunc_Z x with
         | Some z => Ok z
         | None => Ok 0%Z
         end
  end.

(** Rounding to binary32, nearest-even. *)
Definition to_float32 (x : t) : t :=
  match x with
  | S754_finite s m e => binary_normalize 24 128 (cond_Zopp s (Zpos m)) e s
  | _ => x
  end.

End B64.

#[export] Instance PyFloat_B64 : PyFloat B64.t := {|
  of_int := B64.of_Z;
  fadd := B64.add;
  fsub := B64.sub;
  fmul := B64.mul;
  fdiv := B64.div;
  feqb := SFeqb;
  fgeb := fun x y => SFleb y x;
  isnan := B64.is_nan;
  floor := B64.floor;
  ceil := B64.ceil;
  divmod := B64.npy_divmod;
  fmod := fun x y => snd (B64.npy_divmod x y);
  astype_int := B64.to_int64;
  py_int := B64.to_pyint;
  astype_float32 := B64.to_float32
|}.

(* ================================================================= *)
(** ** NumPy arrays *)

(** A default element, returned by a lookup outside the buffer. *)
Class Default (A : Type) : Type := dflt : A.

#[export] Instance Default_bool : Default bool := false.
#[export] Instance Default_nat : Default nat := 0%nat.
#[export] Instance Default_Z : Default Z := 0%Z.
#[export] Instance Default_float {R} `{PyFloat R} : Default R := (of_int 0 : R).

Module Np.

(** An array is its shape and its elements in row-major (C) order. *)
Record ndarray (A : Type) : Type := mk {
  shape : list nat;
  data : list A
}.

(** Number of elements of an array of shape [s]. *)
Definition size_of (s : list nat) : nat := fold_right Nat.mul 1%nat s.

(** Every NumPy array has as many elements as its shape says. *)
Definition wf {A} (a : ndarray A) : Prop :=
  List.length (data a) = size_of (shape a).

(** The multi-indices of shape [s] in row-major order ([np.ndindex]). *)
Fixpoint indices (s : list nat) : list (list nat) :=
  match s with
  | [] => [[]]
  | d :: s' => flat_map (fun i => map (cons i) (indices s')) (seq 0 d)
  end.

(** Position of multi-index [idx] in the buffer of an array of shape
    [s] ([np.ravel_multi_index]). *)
Fixpoint ravel (s idx : list nat) : nat :=
  match s, idx with
  | _ :: s', i :: idx' => i * size_of s' + ravel s' idx'
  | _, _ => 0
  end.

(** [idx] is a multi-index of shape [s]. *)
Definition valid (s idx : list nat) : Prop := Forall2 lt idx s.

(** [a[idx]] *)
Definition item {A} `{Default A} (a : ndarray A) (idx : list nat) : A :=
  nth (ravel (shape a) idx) (data a) dflt.

(** The array of shape [s] whose element at [idx] is [g idx]. *)
Definition tabulate {A} (s : list nat) (g : list nat -> A) : ndarray A :=
  mk s (map g (indices s)).

(** A Python scalar seen as a 0-dimensional array. *)
Definition scalar {A} (x : A) : ndarray A := mk [] [x].

(** [np.array(t)] for a tuple of scalars [t]. *)
Definition array1 {A} (l : list A) : ndarray A := mk [List.length l] l.

(** A ufunc of one argument, and [astype]. *)
Definition map1 {A B} (f : A -> B) (a : ndarray A) : ndarray B :=
  mk (shape a) (map f (data a)).

(** *** Broadcasting *)

(** Shapes are aligned at their last dimension: the functions below
    work on reversed shapes. *)
Fixpoint broadcast_rev (r1 r2 : list nat) : option (list nat) :=
  match r1, r2 with
  | [], r => Some r
  | r, [] => Some r
  | d1 :: r1', d2 :: r2' =>
      match broadcast_rev r1' r2' with
      | None => None
      | Some r =>
          if (d1 =? d2)%nat then Some (d1 :: r)
          else if (d1 =? 1)%nat then Some (d2 :: r)
          else if (d2 =? 1)%nat then Some (d1 :: r)
          else None
      end
  end.

(** [np.broadcast_shapes(s1, s2)] *)
Definition broadcast_shapes (s1 s2 : list nat) : option (list nat) :=
  option_map (@rev nat) (broadcast_rev (rev s1) (rev s2)).

Fixpoint bidx_rev (rs ridx : list nat) : list nat :=
  match rs with
  | [] => []
  | d :: rs' =>
      (if (d =? 1)%nat then 0%nat else hd 0%nat ridx) :: bidx_rev rs' (tl ridx)
  end.

(** The multi-index of an operand of shape [s] that is broadcast to
    position [idx] of the result: the trailing dimensions of [idx],
    with 0 along every dimension of extent 1. *)
Definition bidx (s idx : list nat) : list nat :=
  rev (bidx_rev (rev s) (rev idx)).

(** A ufunc of two arguments.  Operands whose shapes do not broadcast
    raise a [ValueError]; this includes [==] (NumPy before 1.25 answered
    [False] there with a deprecation warning). *)
Definition broadcast2 {A B C} `{Default A} `{Default B}
    (f : A -> B -> C) (a : ndarray A) (b : ndarray B) : result (ndarray C) :=
  match broadcast_shapes (shape a) (shape b) with
  | None => Err (ValueError "operands could not be broadcast together")
  | Some s =>
      Ok (tabulate s (fun idx =>
            f (item a (bidx (shape a) idx)) (item b (bidx (shape b) idx))))
  end.

(** [np.all(a)] *)
Definition all (a : ndarray bool) : bool := forallb (fun b => b) (data a).

(** *** Construction and reshaping *)

(** [np.arange(0, n)] *)
Definition arange (n : nat) : ndarray Z :=
  mk [n] (map Z.of_nat (seq 0 n)).

(** [np.meshgrid(x, y, indexing='xy')] for 1-D [x] and [y]: two arrays
    of shape [(len(y), len(x))], the first repeating [x] along the
    rows and the second repeating [y] along the columns. *)
Definition meshgrid_xy {A} `{Default A} (x y : ndarray A)
  : ndarray A * ndarray A :=
  let s := [List.length (data y); List.length (data x)] in
  (tabulate s (fun idx => nth (nth 1 idx 0%nat) (data x) dflt),
   tabulate s (fun idx => nth (nth 0 idx 0%nat) (data y) dflt)).

(** [a.reshape(s)] *)
Definition reshape {A} (a : ndarray A) (s : list nat) : result (ndarray A) :=
  if (size_of s =? List.length (data a))%nat then Ok (mk s (data a))
  else Err (ValueError "cannot reshape array").

(** [a.reshape(1, -1)] *)
Definition reshape_row {A} (a : ndarray A) : ndarray A :=
  mk [1%nat; List.length (data a)] (data a).

(** [np.atleast_2d(a)] *)
Definition atleast_2d {A} (a : ndarray A) : ndarray A :=
  match shape a with
  | [] => mk [1%nat; 1%nat] (data a)
  | [n] => mk [1%nat; n] (data a)
  | _ => a
  end.

(** [np.row_stack((a, b))] *)
Definition row_stack {A} (a b : ndarray A) : result (ndarray A) :=
  match shape (atleast_2d a), shape (atleast_2d b) with
  | r1 :: s1, r2 :: s2 =>
      if list_eq_dec Nat.eq_dec s1 s2
      then Ok (mk ((r1 + r2)%nat :: s1) (data a ++ data b))
      else Err (ValueError "all the input array dimensions except for the concatenation axis must match exactly")
  | _, _ => Err (ValueError "need at least one array to concatenate")
  end.

(** [a[:k]] *)
Definition take_rows {A} (k : nat) (a : ndarray A) : result (ndarray A) :=
  match shape a with
  | [] => Err (IndexError "too many indices for array")
  | d :: s =>
      Ok (mk (Nat.min k d :: s) (firstn (Nat.min k d * size_of s) (data a)))
  end.

(** [a[k]] *)
Definition row {A} (k : nat) (a : ndarray A) : result (ndarray A) :=
  match shape a with
  | [] => Err (IndexError "too many indices for array")
  | d :: s =>
      if (k <? d)%nat
      then Ok (mk s (firstn (size_of s) (skipn (k * size_of s) (data a))))
      else Err (IndexError "index is out of bounds for axis 0")
  end.

(** [np.full_like(a, fill_value=v)], [v] of the element type of [a]. *)
Definition full_like {A} (a : ndarray A) (v : A) : ndarray A :=
  mk (shape a) (map (fun _ => v) (data a)).

(** *** Matrix product *)

Section Dot.
Context {R : Type} `{PyFloat R}.

Definition sum (l : list R) : R :=
  match l with
  | [] => of_int 0
  | x :: l' => fold_left fadd l' x
  end.

(** [a.dot(b)] for two 2-D arrays. *)
Definition dot (a b : ndarray R) : result (ndarray R) :=
  match shape a, shape b with
  | [m; n], [n'; p] =>
      if (n =? n')%nat then
        Ok (tabulate [m; p] (fun idx =>
              let i := nth 0 idx 0%nat in
              let j := nth 1 idx 0%nat in
              sum (map (fun k => fmul (item a [i; k]) (item b [k; j]))
                       (seq 0 n))))
      else Err (ValueError "shapes not aligned")
  | _, _ => Err (ValueError "shapes not aligned")
  end.
End Dot.

End Np.

(* ================================================================= *)
(** ** rasterio *)

Module Rio.


(** [rasterio.CRS]: only CRSs built by [CRS.from_epsg] occur. *)
Inductive CRS : Type :=
| from_epsg (code : Z).

Definition to_epsg (c : CRS) : Z := match c with from_epsg code => code end.

End Rio.
Import Rio.

(* ================================================================= *)
(** ** OpenCV *)

Module Cv2.

(** Interpolation flags. *)
Definition INTER_NEAREST : Z := 0.
Definition INTER_LINEAR : Z := 1.
Definition INTER_CUBIC : Z := 2.
Definition INTER_AREA : Z := 3.
Definition INTER_LANCZOS4 : Z := 4.

Section Remap.
Context {R P : Type}.

(** [interpolate flag src x y]: the value OpenCV interpolates from
    [src] at source coordinates [(x, y)] with method [flag], or
    [None] when [(x, y)] is an outlier of [src] (outside its bounds,
    or not finite). *)
Variable interpolate : Z -> Np.ndarray P -> R -> R -> option P.

(** [cv2.remap(src, map1, map2, interpolation, dst=dst,
    borderMode=cv2.BORDER_TRANSPARENT)], where [dst] has the shape
    of the maps: the contents of [dst] after the call.  With a
    transparent border the pixels of [dst] that correspond to
    outliers in [src] are not modified. *)
Definition remap_transparent (src : Np.ndarray P) (map1 map2 : Np.ndarray R)
    (interpolation : Z) (dst : Np.ndarray P) : Np.ndarray P :=
  Np.mk (Np.shape dst)
    (map (fun '(d, (x, y)) =>
            match interpolate interpolation src x y with
            | Some v => v
            | None => d
            end)
         (combine (Np.data dst) (combine (Np.data map1) (Np.data map2)))).
End Remap.

End Cv2.

(* ================================================================= *)
(** ** simple_ortho/enums.py *)

Module Enums.

(** [class Interp(str, Enum)] *)
Inductive Interp : Type :=
| average
| bilinear
| cubic
| lanczos
| nearest.

(** [list(Interp)]: the members in definition order. *)
Definition Interp_members : list Interp :=
  [average; bilinear; cubic; lanczos; nearest].

Definition _name_ (self : Interp) : string :=
  match self with
  | average => "average"
  | bilinear => "bilinear"
  | cubic => "cubic"
  | lanczos => "lanczos"
  | nearest => "nearest"
  end.

(** A [dict] with string keys, as its list of items; the first item
    with a given key is the one a lookup finds. *)
Definition dict (V : Type) : Type := list (string * V).

Fixpoint dict_get {V} (d : dict V) (k : string) : option V :=
  match d with
  | [] => None
  | (k', v) :: d' => if String.eqb k k' then Some v else dict_get d' k
  end.

(** The table that [to_cv] builds. *)
Definition name_to_cv : dict Z :=
  [("average", Cv2.INTER_AREA); ("bilinear", Cv2.INTER_LINEAR);
   ("cubic", Cv2.INTER_CUBIC); ("lanczos", Cv2.INTER_LANCZOS4);
   ("nearest", Cv2.INTER_NEAREST)]%string.

(** [Interp.to_cv(self)] *)
Definition to_cv (self : Interp) : result Z :=
  match dict_get name_to_cv (_name_ self) with
  | None => Err (ValueError ("OpenCV does not support '" ++ _name_ self
                             ++ "' interpolation.")%string)
  | Some c => Ok c
  end.

(** [Interp.cv_list()]: the [try] / [except ValueError] keeps the members
    whose conversion returns. *)
Definition cv_list : result (list Interp) :=
  fold_left
    (fun acc interp =>
       _cv_list <- acc ;;
       match to_cv interp with
       | Ok _ => Ok (_cv_list ++ [interp])
       | Err (ValueError _) => Ok _cv_list
       | Err e => Err e
       end)
    Interp_members (Ok []).

End Enums.
Import Enums.

(* ================================================================= *)
(** ** The camera model *)

Module Camera.

Section WithFloat.
Context {R : Type} `{PyFloat R}.

(** Modelled from the spec: the camera class is not among the source
    files.  A camera has an image size (width, height), a mapping
    [pixel_to_camera_ray] from a (column, row) pixel coordinate to
    camera-space coordinates, applied point by point to one or many
    pixels, and a 3x3 undistortion intrinsic matrix (here its three
    rows). *)
Record t : Type := mk {
  _im_size : nat * nat;
  pixel_to_camera_ray : Z * Z -> R * R * R;
  undistort_intrinsic_matrix : (R * R * R) * (R * R * R) * (R * R * R)
}.

(** [camera._K_undistort]: the matrix as a 3x3 array. *)
Definition _K_undistort (camera : t) : Np.ndarray R :=
  let '((k00, k01, k02), (k10, k11, k12), (k20, k21, k22)) :=
    undistort_intrinsic_matrix camera in
  Np.mk [3; 3]%nat [k00; k01; k02; k10; k11; k12; k20; k21; k22].

(** [camera._pixel_to_camera(ji)]: [ji] is a 2xN array of pixel
    coordinates, one (column, row) pair per column; the result is
    the 3xN array of their camera-space coordinates. *)
Definition _pixel_to_camera (camera : t) (ji : Np.ndarray Z) : Np.ndarray R :=
  let n := nth 1 (Np.shape ji) 0%nat in
  Np.tabulate [3%nat; n] (fun idx =>
    let k := nth 1 idx 0%nat in
    let '(x, y, z) :=
      pixel_to_camera_ray camera (Np.item ji [0%nat; k], Np.item ji [1%nat; k]) in
    match nth 0 idx 0%nat with
    | 0%nat => x
    | 1%nat => y
    | _ => z
    end).
End WithFloat.

Arguments t R : clear implicits.

End Camera.

(* ================================================================= *)
(** ** simple_ortho/utils.py *)

Module Utils.

Section WithFloat.
Context {R : Type} `{PyFloat R}.


(** [nan_equals(a, b)] *)
Definition nan_equals (a b : Np.ndarray R) : result (Np.ndarray bool) :=
  eq <- Np.broadcast2 feqb a b ;;
  both <- Np.broadcast2 andb (Np.map1 isnan a) (Np.map1 isnan b) ;;
  Np.broadcast2 orb eq both.

(** [utm_crs_from_latlon(lat, lon)] *)
Definition utm_crs_from_latlon (lat lon : R) : result CRS :=
  z <- py_int (fmod (floor (fdiv (fadd lon (of_int 180)) (of_int 6)))
                    (of_int 60)) ;;
  let zone := (z + 1)%Z in
  let epsg := if fgeb lat (of_int 0) then (32600 + zone)%Z
              else (32700 + zone)%Z in
  Ok (from_epsg epsg).

Section Distort.
(** The pixel type of the image, and OpenCV's interpolation. *)
Context {P : Type}.
Variable interpolate : Z -> Np.ndarray P -> R -> R -> option P.

(** [distort_image(camera, image, nodata=0, interp=Interp.nearest)] *)
Definition distort_image (camera : Camera.t R) (image : Np.ndarray P)
    (nodata : P) (interp : Interp) : result (Np.ndarray P) :=
  let _im_size := Camera._im_size camera in
  same <- Np.broadcast2 Nat.eqb (Np.array1 (rev (Np.shape image)))
                        (Np.array1 [fst _im_size; snd _im_size]) ;;
  if negb (Np.all same) then
    Err (ValueError "'image' shape should be the same as the 'camera' image size.")
  else
    (* create (j, i) pixel coords for distorted image *)
    let j_range := Np.arange (fst _im_size) in
    let i_range := Np.arange (snd _im_size) in
    let '(j_grid, i_grid) := Np.meshgrid_xy j_range i_range in
    ji <- Np.row_stack (Np.reshape_row j_grid) (Np.reshape_row i_grid) ;;
    (* find the corresponding undistorted / source (j, i) pixel coords *)
    let camera_xyz := Camera._pixel_to_camera camera ji in
    k_xyz <- Np.dot (Camera._K_undistort camera) camera_xyz ;;
    k_xy <- Np.take_rows 2 k_xyz ;;
    let undist_ji := Np.map1 astype_float32 k_xy in
    (* remap the distorted image from the source image *)
    let dist_image := Np.full_like image nodata in
    undist_j <- Np.row 0 undist_ji ;;
    map1 <- Np.reshape undist_j (Np.shape image) ;;
    undist_i <- Np.row 1 undist_ji ;;
    map2 <- Np.reshape undist_i (Np.shape image) ;;
    interpolation <- to_cv interp ;;
    Ok (Cv2.remap_transparent interpolate image map1 map2
                              interpolation dist_image).
End Distort.

End WithFloat.

End Utils.
Import Utils.

(* ================================================================= *)
(** ** Reference statements and sample data *)

Module Ref.

Section Backend.
(** The name-to-constant table of a resampling backend. *)
Variable name_to_const : dict Z.

(** [to_cv] for an arbitrary backend table. *)
Definition to_const (self : Interp) : result Z :=
  match dict_get name_to_const (_name_ self) with
  | None => Err (ValueError ("OpenCV does not support '" ++ _name_ self
                             ++ "' interpolation.")%string)
  | Some c => Ok c
  end.

(** [cv_list] for an arbitrary backend table. *)
Definition const_list : result (list Interp) :=
  fold_left
    (fun acc interp =>
       _cv_list <- acc ;;
       match to_const interp with
       | Ok _ => Ok (_cv_list ++ [interp])
       | Err (ValueError _) => Ok _cv_list
       | Err e => Err e
       end)
    Interp_members (Ok []).
End Backend.

(** The fractional remainder that [np.divmod(x, 1)] returns, in exact
    arithmetic. *)
Definition frac (x : Q) : Q := x - inject_Z (Qfloor x).





(** Two broadcastable sample arrays, of shapes (2, 1) and (3,). *)
Definition sample_column : Np.ndarray B64.t :=
  Np.mk [2; 1]%nat [B64.of_Z 1; B64.nan].

Definition sample_row : Np.ndarray B64.t :=
  Np.mk [3]%nat [B64.of_Z 1; B64.nan; B64.of_Z 2].

(** The 2 x (h w) array of the pixel coordinates of a grid of [w]
    columns and [h] rows, in row-major order: the columns in its first
    row, the rows in its second. *)
Definition pixel_grid (w h : nat) : Np.ndarray Z :=
  Np.mk [2%nat; (h * w)%nat]
        (map (fun k => Z.of_nat (k mod w)) (seq 0 (h * w))
         ++ map (fun k => Z.of_nat (k / w)) (seq 0 (h * w))).

Section SourceCoordinates.
Context {R : Type} `{PyFloat R}.

(** Component [t] of a camera-space coordinate triple. *)
Definition ray_component (t : nat) (xyz : R * R * R) : R :=
  let '(x, y, z) := xyz in
  match t with 0%nat => x | 1%nat => y | _ => z end.

(** The source coordinates of the output pixel in column [j] and row
    [i]: the camera ray of the pixel, multiplied by the first two rows
    of the undistortion intrinsic matrix, as float32. *)
Definition undistorted_pixel (camera : Camera.t R) (j i : nat) : R * R :=
  let '(x, y, z) := Camera.pixel_to_camera_ray camera (Z.of_nat j, Z.of_nat i) in
  let '((k00, k01, k02), (k10, k11, k12), _) :=
    Camera.undistort_intrinsic_matrix camera in
  (astype_float32 (fadd (fadd (fmul k00 x) (fmul k01 y)) (fmul k02 z)),
   astype_float32 (fadd (fadd (fmul k10 x) (fmul k11 y)) (fmul k12 z))).

(** What a remapped pixel holds: the value interpolated at the source
    coordinates, or the nodata value when they are an outlier. *)
Definition resampled_or_nodata {P : Type}
    (interpolate : Z -> Np.ndarray P -> R -> R -> option P)
    (interpolation : Z) (image : Np.ndarray P) (nodata : P) (xy : R * R) : P :=
  match interpolate interpolation image (fst xy) (snd xy) with
  | Some v => v
  | None => nodata
  end.

End SourceCoordinates.

(** A nearest-neighbour interpolation over exact coordinates, for 2-D
    sources: the pixel whose centre is nearest, when there is one. *)
Definition nearest_neighbour (flag : Z) (src : Np.ndarray nat) (x y : Q)
  : option nat :=
  match Np.shape src with
  | [h; w] =>
      let c := Qfloor (x + (1 # 2)) in
      let r := Qfloor (y + (1 # 2)) in
      if ((0 <=? c) && (c <? Z.of_nat w) && (0 <=? r) && (r <? Z.of_nat h))%Z
      then nth_error (Np.data src) (Z.to_nat r * w + Z.to_nat c)
      else None
  | _ => None
  end.

(** A camera of 3 x 2 pixels whose source coordinates are shifted one
    column to the right, and an image of its size. *)
Definition sample_camera : Camera.t Q :=
  Camera.mk (3, 2)%nat
    (fun '(j, i) => (inject_Z j, inject_Z i, 1))
    ((1, 0, 1), (0, 1, 0), (0, 0, 1)).

Definition sample_image : Np.ndarray nat :=
  Np.mk [2; 3]%nat [10; 11; 12; 13; 14; 15]%nat.

(** A camera of one pixel and a 1-D buffer of one element. *)
Definition one_pixel_camera : Camera.t Q :=
  Camera.mk (1, 1)%nat
    (fun '(j, i) => (inject_Z j, inject_Z i, 1))
    ((1, 0, 0), (0, 1, 0), (0, 0, 1)).

Definition one_element_buffer : Np.ndarray nat := Np.mk [1]%nat [7]%nat.

End Ref.

(* ================================================================= *)
(** ** simple_ortho/enums.py: the other enumerations *)

(** [enum[name]]: the member, or [KeyError(name)]. *)
Inductive subscript (A : Type) : Type :=
| Item (a : A)
| KeyError (key : string).
Arguments Item {A} a.
Arguments KeyError {A} key.

Module CameraType.

(** [class CameraType(str, Enum)] *)
Inductive t : Type :=
| pinhole
| brown
| fisheye
| opencv.

Definition _name_ (self : t) : string :=
  match self with
  | pinhole => "pinhole"
  | brown => "brown"
  | fisheye => "fisheye"
  | opencv => "opencv"
  end.

(** The value given to each member in the class body. *)
Definition _value_ (self : t) : string :=
  match self with
  | pinhole => "pinhole"
  | brown => "brown"
  | fisheye => "fisheye"
  | opencv => "opencv"
  end.

Definition __repr__ (self : t) : string := _name_ self.

Definition __str__ (self : t) : string := _name_ self.

(** [CameraType.__members__]: the members by name, in definition
    order. *)
Definition __members__ : dict t :=
  [("pinhole", pinhole); ("brown", brown); ("fisheye", fisheye);
   ("opencv", opencv)]%string.

(** [CameraType(value)]: the member with that value. *)
Definition of_value (value : string) : result t :=
  match find (fun m => String.eqb (_value_ m) value) (map snd __members__) with
  | Some m => Ok m
  | None => Err (ValueError ("'" ++ value ++ "' is not a valid CameraType")%string)
  end.

(** [CameraType.from_odm(cam_type)] *)
Definition from_odm (cam_type : string) : result t :=
  let cam_type :=
    if String.eqb cam_type "perspective" then "brown"%string else cam_type in
  match dict_get __members__ cam_type with
  | None => Err (ValueError ("Unsupported ODM / OpenSFM camera type: '"
                             ++ cam_type ++ "'")%string)
  | Some _ => of_value cam_type
  end.

(** The strings that [from_odm] converts. *)
Definition odm_types : list string :=
  ["perspective"; "pinhole"; "brown"; "fisheye"; "opencv"]%string.

End CameraType.

Module CsvFormat.

(** [class CsvFormat(Enum)] *)
Inductive t : Type :=
| xyz_opk
| lla_opk
| xyz_rpy
| lla_rpy.

Definition _value_ (self : t) : Z :=
  match self with
  | xyz_opk => 1
  | lla_opk => 2
  | xyz_rpy => 3
  | lla_rpy => 4
  end.

(** [a is b] on members. *)
Definition is_ (a b : t) : bool :=
  match a, b with
  | xyz_opk, xyz_opk | lla_opk, lla_opk | xyz_rpy, xyz_rpy | lla_rpy, lla_rpy =>
      true
  | _, _ => false
  end.

(** [CsvFormat.is_opk] *)
Definition is_opk (self : t) : bool := is_ self xyz_opk || is_ self lla_opk.

(** [CsvFormat.is_xyz] *)
Definition is_xyz (self : t) : bool := is_ self xyz_opk || is_ self xyz_rpy.

End CsvFormat.

(** [rasterio.enums.Resampling] *)
Module Resampling.

Inductive t : Type :=
| nearest
| bilinear
| cubic
| cubic_spline
| lanczos
| average
| mode
| gauss
| max
| min
| med
| q1
| q3
| sum
| rms.

Definition __members__ : dict t :=
  [("nearest", nearest); ("bilinear", bilinear); ("cubic", cubic);
   ("cubic_spline", cubic_spline); ("lanczos", lanczos);
   ("average", average); ("mode", mode); ("gauss", gauss); ("max", max);
   ("min", min); ("med", med); ("q1", q1); ("q3", q3); ("sum", sum);
   ("rms", rms)]%string.

Definition _value_ (self : t) : Z :=
  match self with
  | nearest => 0
  | bilinear => 1
  | cubic => 2
  | cubic_spline => 3
  | lanczos => 4
  | average => 5
  | mode => 6
  | gauss => 7
  | max => 8
  | min => 9
  | med => 10
  | q1 => 11
  | q3 => 12
  | sum => 13
  | rms => 14
  end.

(** [Resampling[name]] *)
Definition getitem (name : string) : subscript t :=
  match dict_get __members__ name with
  | Some m => Item m
  | None => KeyError name
  end.

End Resampling.

Module InterpRio.

(** [Interp.to_rio(self)] *)
Definition to_rio (self : Interp) : subscript Resampling.t :=
  Resampling.getitem (_name_ self).

End InterpRio.

(* ================================================================= *)
(** ** simple_ortho/utils.py: [validate_collection] *)

Module Validate.

Section Values.

(** Classes, and the objects that are neither [None], a class, a list,
    a tuple nor a dict (numbers, strings, ...). *)
Variables ty atom : Type.

(** The Python objects that templates and collections are made of.  A
    dict is the list of its items in insertion order, with distinct
    string keys. *)
#[warnings="-register-all"] Inductive value : Type :=
| VNone
| VAtom (a : atom)
| VType (cls : ty)
| VList (items : list value)
| VTuple (items : list value)
| VDict (items : list (string * value)).

(** [isinstance(obj, cls)] and [obj == other]. *)
Variable isinstance : value -> ty -> bool.
Variable py_eq : value -> value -> bool.

(** What [validate_collection] raises: [KeyError(f"No key: '{k}'.")],
    [TypeError] and [ValueError], the last two with the collection and
    the template that their messages format. *)
Inductive exn : Type :=
| KeyError (k : string)
| TypeError (coll template : value)
| ValueError (coll template : value).

Inductive result : Type :=
| Returns
| Raises (e : exn).

(** [d[k]], when [k in d]. *)
Fixpoint getitem (d : list (string * value)) (k : string) : option value :=
  match d with
  | [] => None
  | (k', v) :: d' => if String.eqb k k' then Some v else getitem d' k
  end.

(** The classes of a tuple whose items are all classes:
    [all([isinstance(item, type) for item in template])]. *)
Fixpoint classes (items : list value) : option (list ty) :=
  match items with
  | [] => Some []
  | VType cls :: items' =>
      match classes items' with
      | Some l => Some (cls :: l)
      | None => None
      end
  | _ :: _ => None
  end.

(** The last branch: [if not coll == template: raise ValueError]. *)
Definition check_equal (template coll : value) : result :=
  if py_eq coll template then Returns else Raises (ValueError coll template).

(** [validate_collection(template, coll)].  The function returns [None]
    on every path that does not raise. *)
Fixpoint validate_collection (template coll : value) {struct template} : result :=
  match template with
  | VDict t_items =>
      match coll with
      | VDict c_items =>
          (fix each (items : list (string * value)) : result :=
             match items with
             | [] => Returns
             | (k, t) :: rest =>
                 match getitem c_items k with
                 | Some c =>
                     match validate_collection t c with
                     | Returns => each rest
                     | Raises e => Raises e
                     end
                 | None => Raises (KeyError k)
                 end
             end) t_items
      | _ => check_equal template coll
      end
  | VList t_items =>
      match t_items, coll with
      | t0 :: _, VList (c0 :: c_rest) =>
          (fix each (items : list value) : result :=
             match items with
             | [] => Returns
             | item :: rest =>
                 match validate_collection t0 item with
                 | Returns => each rest
                 | Raises e => Raises e
                 end
             end) (c0 :: c_rest)
      | _, _ => check_equal template coll
      end
  | VType cls =>
      if isinstance coll cls then Returns else Raises (TypeError coll template)
  | VTuple t_items =>
      match classes t_items with
      | Some clss =>
          if existsb (isinstance coll) clss then Returns
          else Raises (TypeError coll template)
      | None => check_equal template coll
      end
  | VNone => Returns
  | VAtom _ => check_equal template coll
  end.

(** The keys of the dicts of a template, at any depth. *)
Fixpoint template_keys (template : value) : list string :=
  match template with
  | VDict items =>
      (fix each (items : list (string * value)) : list string :=
         match items with
         | [] => []
         | (k, t) :: rest => k :: template_keys t ++ each rest
         end) items
  | VList items | VTuple items =>
      (fix each (items : list value) : list string :=
         match items with
         | [] => []
         | t :: rest => template_keys t ++ each rest
         end) items
  | _ => []
  end.

End Values.

Arguments VNone {ty atom}.
Arguments VAtom {ty atom} a.
Arguments VType {ty atom} cls.
Arguments VList {ty atom} items.
Arguments VTuple {ty atom} items.
Arguments VDict {ty atom} items.
Arguments KeyError {ty atom} k.
Arguments TypeError {ty atom} coll template.
Arguments ValueError {ty atom} coll template.
Arguments Returns {ty atom}.
Arguments Raises {ty atom} e.

End Validate.

(* ================================================================= *)
(** ** Further sample data *)

Module Samples.

(** An array without NaN. *)
Definition finite_row : Np.ndarray B64.t :=
  Np.mk [3]%nat [B64.of_Z 1; B64.of_Z 2; B64.of_Z 3].

(** An image of 3 x 2 pixels with a channel axis. *)
Definition channel_image : Np.ndarray nat :=
  Np.mk [2; 3; 1]%nat [10; 11; 12; 13; 14; 15]%nat.

(** A camera of 3 x 2 pixels whose source coordinates are the pixel
    coordinates, and one whose source coordinates are ten columns to the
    right, outside the image. *)
Definition identity_camera : Camera.t Q :=
  Camera.mk (3, 2)%nat
    (fun '(j, i) => (inject_Z j, inject_Z i, 1))
    ((1, 0, 0), (0, 1, 0), (0, 0, 1)).

Definition outside_camera : Camera.t Q :=
  Camera.mk (3, 2)%nat
    (fun '(j, i) => (inject_Z j, inject_Z i, 1))
    ((1, 0, 10), (0, 1, 0), (0, 0, 1)).

(** Classes and scalars for [validate_collection]: [int] and [str], and
    integers and strings as the other objects. *)
Inductive cls : Type :=
| c_int
| c_str.

Inductive scalar : Type :=
| SInt (z : Z)
| SStr (s : string).

Definition value : Type := Validate.value cls scalar.

Definition isinstance (obj : value) (c : cls) : bool :=
  match obj, c with
  | Validate.VAtom (SInt _), c_int => true
  | Validate.VAtom (SStr _), c_str => true
  | _, _ => false
  end.

Definition scalar_eqb (a b : scalar) : bool :=
  match a, b with
  | SInt x, SInt y => Z.eqb x y
  | SStr x, SStr y => String.eqb x y
  | _, _ => false
  end.

(** [==] on these objects; two dicts are equal when they have the same
    number of items and every item of the first is in the second. *)
Fixpoint py_eq (a b : value) {struct a} : bool :=
  match a, b with
  | Validate.VNone, Validate.VNone => true
  | Validate.VAtom x, Validate.VAtom y => scalar_eqb x y
  | Validate.VType c, Validate.VType c' =>
      match c, c' with
      | c_int, c_int | c_str, c_str => true
      | _, _ => false
      end
  | Validate.VList l, Validate.VList l' =>
      (fix each (l l' : list value) : bool :=
         match l, l' with
         | [], [] => true
         | x :: r, y :: r' => py_eq x y && each r r'
         | _, _ => false
         end) l l'
  | Validate.VTuple l, Validate.VTuple l' =>
      (fix each (l l' : list value) : bool :=
         match l, l' with
         | [], [] => true
         | x :: r, y :: r' => py_eq x y && each r r'
         | _, _ => false
         end) l l'
  | Validate.VDict d, Validate.VDict d' =>
      Nat.eqb (List.length d) (List.length d')
      && (fix each (d : list (string * value)) : bool :=
            match d with
            | [] => true
            | (k, v) :: r =>
                match Validate.getitem d' k with
                | Some v' => py_eq v v' && each r
                | None => false
                end
            end) d
  | _, _ => false
  end.

(** A template of a camera configuration, a configuration that it
    accepts and one that lacks a key. *)
Definition template : value :=
  Validate.VDict
    [("type", Validate.VType c_str);
     ("im_size", Validate.VList [Validate.VType c_int]);
     ("name", Validate.VNone)]%string.

Definition config : value :=
  Validate.VDict
    [("name", Validate.VAtom (SStr "left"));
     ("im_size", Validate.VList [Validate.VAtom (SInt 640);
                                 Validate.VAtom (SInt 480)]);
     ("type", Validate.VAtom (SStr "pinhole"));
     ("comment", Validate.VAtom (SInt 0))]%string.

End Samples.

(* ================================================================= *)
(** * Properties *)

(** ** Exact arithmetic *)

Section QLemmas.



Lemma Qfloor_plus_Z (x : Q) (z : Z) : Qfloor (x + inject_Z z) = (Qfloor x + z)%Z.
Proof.
  destruct x as [n d]. unfold Qfloor, Qplus, inject_Z. cbn [Qnum Qden].
  rewrite Pos.mul_1_r, Z.mul_1_r, Z.div_add by discriminate.
  reflexivity.
Qed.




End QLemmas.

(** ** [expand_window_to_grid] *)

Section ExpandWindow.






End ExpandWindow.

Section ExpandWindowClaims.

Local Open Scope Q_scope.




End ExpandWindowClaims.

Section PadOrder.



Local Open Scope Q_scope.


End PadOrder.

(** ** [utm_crs_from_latlon] *)

Section Utm.

Local Open Scope Q_scope.





End Utm.

(** ** [Interp] *)

Section InterpConversion.

Lemma Interp_members_complete (m : Interp) : In m Interp_members.
Proof. destruct m; cbn; tauto. Qed.

(** The two functions of [Interp] are the general ones at the OpenCV
    table. *)
Lemma to_cv_to_const (m : Interp) : to_cv m = Ref.to_const name_to_cv m.
Proof. reflexivity. Qed.

Lemma cv_list_const_list : cv_list = Ref.const_list name_to_cv.
Proof. reflexivity. Qed.

(** The [try] / [except] loop of [cv_list] is a filter. *)
Lemma const_list_filter (table : dict Z) :
  Ref.const_list table
  = Ok (filter (fun m => is_ok (Ref.to_const table m)) Interp_members).
Proof.
  unfold Ref.const_list, Ref.to_const, Interp_members.
  cbn [fold_left filter _name_ Py.bind].
  destruct (dict_get table "average"), (dict_get table "bilinear"),
    (dict_get table "cubic"), (dict_get table "lanczos"),
    (dict_get table "nearest"); reflexivity.
Qed.

Lemma to_const_cases (table : dict Z) (m : Interp) :
  (exists c, Ref.to_const table m = Ok c)
  \/ raises_ValueError (Ref.to_const table m).
Proof.
  unfold Ref.to_const, raises_ValueError.
  destruct (dict_get table (_name_ m)); eauto.
Qed.

Lemma is_ok_true {A} (r : result A) : is_ok r = true <-> exists a, r = Ok a.
Proof.
  destruct r; cbn; split; eauto; try discriminate.
  intros [a Ha]. discriminate.
Qed.

(** The conversion and the list of supported methods of any backend
    table agree. *)
Lemma const_list_exact (table : dict Z) (m : Interp) :
  exists supported,
    Ref.const_list table = Ok supported /\
    (raises_ValueError (Ref.to_const table m) <-> ~ In m supported) /\
    ((exists c, Ref.to_const table m = Ok c) <-> In m supported).
Proof.
  eexists. split; [apply const_list_filter |].
  rewrite filter_In, is_ok_true.
  pose proof (Interp_members_complete m) as Hin.
  destruct (to_const_cases table m) as [[c Hc] | Hraise].
  - split; split.
    + intros [msg Hmsg]. congruence.
    + intros Hnot. exfalso. apply Hnot. eauto.
    + intros _. eauto.
    + intros _. eauto.
  - split; split.
    + intros _ [_ [c Hc]]. destruct Hraise as [msg Hmsg]. congruence.
    + intros _. exact Hraise.
    + intros [c Hc]. destruct Hraise as [msg Hmsg]. congruence.
    + intros [_ Hc]. exact Hc.
Qed.

(** C7.  For every interpolation method, [to_cv] raises the
    unsupported-method [ValueError] exactly when the method is not in
    the list that [cv_list] returns, and returns a constant exactly when
    it is in that list; the same holds of the conversion and the list
    of supported methods of every backend table.  For the remap backend
    all five methods are supported, so [to_cv] never raises. *)
Theorem interp_to_cv_supported (m : Interp) :
  (exists supported,
      cv_list = Ok supported /\
      (raises_ValueError (to_cv m) <-> ~ In m supported) /\
      ((exists c, to_cv m = Ok c) <-> In m supported)) /\
  (forall table : dict Z,
      exists supported,
        Ref.const_list table = Ok supported /\
        (raises_ValueError (Ref.to_const table m) <-> ~ In m supported) /\
        ((exists c, Ref.to_const table m = Ok c) <-> In m supported)) /\
  cv_list = Ok [average; bilinear; cubic; lanczos; nearest] /\
  In m [average; bilinear; cubic; lanczos; nearest] /\
  (exists c, to_cv m = Ok c) /\
  ~ raises_ValueError (to_cv m).
Proof.
  split; [| split; [| split; [| split; [| split]]]].
  - rewrite cv_list_const_list, to_cv_to_const. apply const_list_exact.
  - intros table. apply const_list_exact.
  - reflexivity.
  - apply (Interp_members_complete m).
  - destruct m; eexists; reflexivity.
  - intros [msg Hmsg]. destruct m; discriminate.
Qed.

End InterpConversion.

(** ** Arrays: indexing *)

Section Indexing.

Import Np.

Lemma nth_flat_map_uniform {A B} (f : A -> list B) (l : list A)
    (p i r : nat) (dA : A) (dB : B) :
  (forall x, List.length (f x) = p) ->
  (i < List.length l)%nat -> (r < p)%nat ->
  nth (i * p + r) (flat_map f l) dB = nth r (f (nth i l dA)) dB.
Proof.
  intros Hlen. revert i.
  induction l as [| a l IH]; intros i Hi Hr; cbn [List.length] in Hi; [lia |].
  cbn [flat_map]. destruct i as [| i].
  - cbn [Nat.mul Nat.add nth]. apply app_nth1. rewrite Hlen. exact Hr.
  - cbn [nth]. replace (S i * p + r)%nat with (List.length (f a) + (i * p + r))%nat
      by (rewrite Hlen; lia).
    rewrite app_nth2_plus. apply IH; [lia | exact Hr].
Qed.

Lemma length_indices (s : list nat) : List.length (indices s) = size_of s.
Proof.
  induction s as [| d s IH]; [reflexivity |].
  cbn [indices size_of fold_right]. fold (size_of s).
  rewrite (flat_map_constant_length (c := size_of s)).
  - rewrite length_seq. reflexivity.
  - intros i _. rewrite length_map. exact IH.
Qed.

Lemma ravel_lt (s idx : list nat) : valid s idx -> (ravel s idx < size_of s)%nat.
Proof.
  unfold valid. intros Hv. induction Hv as [| i d idx s Hlt Hv IH].
  - cbn. lia.
  - cbn [ravel size_of fold_right]. fold (size_of s). nia.
Qed.

Lemma nth_indices (s idx d : list nat) :
  valid s idx -> nth (ravel s idx) (indices s) d = idx.
Proof.
  unfold valid. intros Hv. induction Hv as [| i n idx s Hlt Hv IH].
  - reflexivity.
  - cbn [ravel indices].
    rewrite (nth_flat_map_uniform (fun i => map (cons i) (indices s))
               (seq 0 n) (p := size_of s) 0%nat).
    + rewrite seq_nth by exact Hlt. cbn [Nat.add].
      rewrite (nth_indep _ d (i :: d)).
      * rewrite (map_nth (cons i)). rewrite IH. reflexivity.
      * rewrite length_map, length_indices. apply ravel_lt, Hv.
    + intros x. rewrite length_map. apply length_indices.
    + rewrite length_seq. exact Hlt.
    + apply ravel_lt, Hv.
Qed.

Lemma nth_map_in {A B} (f : A -> B) (l : list A) (k : nat) (dA : A) (dB : B) :
  (k < List.length l)%nat -> nth k (map f l) dB = f (nth k l dA).
Proof.
  intros Hk. rewrite (nth_indep _ dB (f dA)) by (rewrite length_map; exact Hk).
  apply map_nth.
Qed.

Lemma item_tabulate {A} `{Default A} (s : list nat) (g : list nat -> A)
    (idx : list nat) :
  valid s idx -> item (tabulate s g) idx = g idx.
Proof.
  intros Hv. unfold item, tabulate. cbn [shape data].
  rewrite (nth_map_in g _ []).
  - rewrite nth_indices by exact Hv. reflexivity.
  - rewrite length_indices. apply ravel_lt, Hv.
Qed.

Lemma wf_tabulate {A} (s : list nat) (g : list nat -> A) : wf (tabulate s g).
Proof. unfold wf, tabulate. cbn [shape data]. rewrite length_map. apply length_indices. Qed.

Lemma item_map1 {A B} `{Default A} `{Default B} (f : A -> B) (a : ndarray A)
    (idx : list nat) :
  wf a -> valid (shape a) idx -> item (map1 f a) idx = f (item a idx).
Proof.
  intros Hwf Hv. unfold item, map1. cbn [shape data].
  apply nth_map_in. rewrite Hwf. apply ravel_lt, Hv.
Qed.

End Indexing.

(** ** Arrays: broadcasting *)

Section Broadcasting.

Import Np.

Lemma Forall2_rev {A B} (P : A -> B -> Prop) (l1 : list A) (l2 : list B) :
  Forall2 P l1 l2 -> Forall2 P (rev l1) (rev l2).
Proof.
  induction 1 as [| x y l1 l2 Hxy Hl IH]; cbn [rev].
  - constructor.
  - apply Forall2_app; [exact IH | constructor; [exact Hxy | constructor]].
Qed.

Lemma broadcast_rev_nil_r (r : list nat) : broadcast_rev r [] = Some r.
Proof. destruct r; reflexivity. Qed.

Lemma broadcast_rev_comm (r1 r2 : list nat) :
  broadcast_rev r1 r2 = broadcast_rev r2 r1.
Proof.
  revert r2. induction r1 as [| d1 r1 IH]; intros [| d2 r2];
    cbn [broadcast_rev]; try reflexivity.
  rewrite (IH r2). destruct (broadcast_rev r2 r1) as [r |]; [| reflexivity].
  destruct (Nat.eqb_spec d1 d2) as [-> | Hne].
  - rewrite Nat.eqb_refl. reflexivity.
  - destruct (Nat.eqb_spec d2 d1) as [E | _]; [congruence |].
    destruct (Nat.eqb_spec d1 1) as [-> | H1], (Nat.eqb_spec d2 1) as [-> | H2];
      reflexivity.
Qed.

Lemma broadcast_rev_refl (r : list nat) : broadcast_rev r r = Some r.
Proof.
  induction r as [| d r IH]; [reflexivity |].
  cbn [broadcast_rev]. rewrite IH, Nat.eqb_refl. reflexivity.
Qed.

(** A position of the broadcast result names a position of the first
    operand. *)
Lemma bidx_rev_valid (r1 r2 r ridx : list nat) :
  broadcast_rev r1 r2 = Some r ->
  Forall2 lt ridx r -> Forall2 lt (bidx_rev r1 ridx) r1.
Proof.
  revert r2 r ridx. induction r1 as [| d1 r1 IH]; intros r2 r ridx Hb Hv.
  - constructor.
  - destruct r2 as [| d2 r2].
    + cbn [broadcast_rev] in Hb. injection Hb as <-.
      inversion Hv as [| i d ridx' r' Hlt Hv' E1 E2]; subst.
      cbn [bidx_rev hd tl]. constructor.
      * destruct (Nat.eqb_spec d1 1); lia.
      * apply (IH [] r1 ridx'); [apply broadcast_rev_nil_r | exact Hv'].
    + cbn [broadcast_rev] in Hb.
      destruct (broadcast_rev r1 r2) as [r0 |] eqn:Hb0; [| discriminate].
      assert (Hd : exists d, r = d :: r0 /\ (d1 = 1 \/ d = d1)%nat).
      { destruct (Nat.eqb_spec d1 d2); [injection Hb as <-; eauto |].
        destruct (Nat.eqb_spec d1 1); [injection Hb as <-; eauto |].
        destruct (Nat.eqb_spec d2 1); [injection Hb as <-; eauto |].
        discriminate. }
      destruct Hd as [d [-> Hd]].
      inversion Hv as [| i d' ridx' r' Hlt Hv' E1 E2]; subst.
      cbn [bidx_rev hd tl]. constructor.
      * destruct (Nat.eqb_spec d1 1); lia.
      * apply (IH r2 r0 ridx'); [exact Hb0 | exact Hv'].
Qed.

Lemma bidx_rev_id (r ridx : list nat) :
  Forall2 lt ridx r -> bidx_rev r ridx = ridx.
Proof.
  induction 1 as [| i d ridx r Hlt Hv IH]; [reflexivity |].
  cbn [bidx_rev hd tl]. rewrite IH.
  destruct (Nat.eqb_spec d 1); [f_equal; lia | reflexivity].
Qed.

Lemma broadcast_shapes_comm (s1 s2 : list nat) :
  broadcast_shapes s1 s2 = broadcast_shapes s2 s1.
Proof. unfold broadcast_shapes. rewrite broadcast_rev_comm. reflexivity. Qed.

Lemma broadcast_shapes_refl (s : list nat) : broadcast_shapes s s = Some s.
Proof.
  unfold broadcast_shapes. rewrite broadcast_rev_refl. cbn [option_map].
  rewrite rev_involutive. reflexivity.
Qed.

Lemma bidx_valid_l (s1 s2 s idx : list nat) :
  broadcast_shapes s1 s2 = Some s -> valid s idx -> valid s1 (bidx s1 idx).
Proof.
  unfold broadcast_shapes, valid, bidx. intros Hb Hv.
  destruct (broadcast_rev (rev s1) (rev s2)) as [r |] eqn:Hr; [| discriminate].
  cbn [option_map] in Hb. injection Hb as <-.
  rewrite <- (rev_involutive s1) at 2. apply Forall2_rev.
  apply (bidx_rev_valid _ _ Hr). rewrite <- (rev_involutive r).
  apply Forall2_rev, Hv.
Qed.

Lemma bidx_valid_r (s1 s2 s idx : list nat) :
  broadcast_shapes s1 s2 = Some s -> valid s idx -> valid s2 (bidx s2 idx).
Proof.
  rewrite broadcast_shapes_comm. apply bidx_valid_l.
Qed.

Lemma bidx_id (s idx : list nat) : valid s idx -> bidx s idx = idx.
Proof.
  unfold valid, bidx. intros Hv.
  rewrite bidx_rev_id by (apply Forall2_rev, Hv). apply rev_involutive.
Qed.

(** A ufunc of two arguments, element by element. *)
Lemma broadcast2_spec {A B C} `{Default A} `{Default B} `{Default C}
    (f : A -> B -> C) (a : ndarray A) (b : ndarray B) (s : list nat) :
  broadcast_shapes (shape a) (shape b) = Some s ->
  exists r,
    broadcast2 f a b = Ok r /\ shape r = s /\ wf r /\
    forall idx, valid s idx ->
      item r idx = f (item a (bidx (shape a) idx)) (item b (bidx (shape b) idx)).
Proof.
  intros Hb. unfold broadcast2. rewrite Hb. eexists.
  split; [reflexivity |]. split; [reflexivity |]. split; [apply wf_tabulate |].
  intros idx Hv. rewrite item_tabulate by exact Hv. reflexivity.
Qed.

Lemma broadcast2_err {A B C} `{Default A} `{Default B}
    (f : A -> B -> C) (a : ndarray A) (b : ndarray B) :
  broadcast_shapes (shape a) (shape b) = None ->
  raises_ValueError (broadcast2 f a b).
Proof.
  intros Hb. unfold broadcast2, raises_ValueError. rewrite Hb. eauto.
Qed.

End Broadcasting.

(** ** [nan_equals] *)

Section NanEquals.

Import Np.

Lemma nan_equals_spec {R} `{PyFloat R} (a b : ndarray R) (s : list nat) :
  wf a -> wf b ->
  broadcast_shapes (shape a) (shape b) = Some s ->
  exists r,
    nan_equals a b = Ok r /\ shape r = s /\ wf r /\
    forall idx, valid s idx ->
      let x := item a (bidx (shape a) idx) in
      let y := item b (bidx (shape b) idx) in
      item r idx = feqb x y || (isnan x && isnan y).
Proof.
  intros Hwa Hwb Hs. unfold nan_equals.
  destruct (broadcast2_spec feqb a b Hs) as [eq [-> [Hseq [_ Heq]]]].
  cbn [Py.bind].
  destruct (broadcast2_spec andb (map1 isnan a) (map1 isnan b) (s := s) Hs)
    as [both [-> [Hsboth [_ Hboth]]]].
  cbn [Py.bind].
  assert (Hss : broadcast_shapes (shape eq) (shape both) = Some s).
  { rewrite Hseq, Hsboth. apply broadcast_shapes_refl. }
  destruct (broadcast2_spec orb eq both Hss) as [r [-> [Hsr [Hwr Hr]]]].
  exists r. split; [reflexivity |]. split; [exact Hsr |]. split; [exact Hwr |].
  intros idx Hv. rewrite (Hr idx Hv), Hseq, Hsboth.
  rewrite (bidx_id Hv), (Heq idx Hv), (Hboth idx Hv).
  cbn [shape map1].
  rewrite item_map1; [| exact Hwa | eapply bidx_valid_l; eassumption].
  rewrite item_map1; [| exact Hwb | eapply bidx_valid_r; eassumption].
  reflexivity.
Qed.

Lemma SFcompare_antisym (x y : spec_float) :
  SFcompare y x = option_map CompOpp (SFcompare x y).
Proof.
  destruct x as [sx | sx | | sx mx ex], y as [sy | sy | | sy my ey];
    try reflexivity;
    try (destruct sx; reflexivity);
    try (destruct sy; reflexivity);
    try (destruct sx, sy; reflexivity).
  cbn [SFcompare option_map].
  destruct sx, sy; try reflexivity; f_equal;
    rewrite (Z.compare_antisym ex ey);
    destruct (ex ?= ey)%Z; cbn [CompOpp]; try reflexivity.
  - rewrite (Pos.compare_cont_antisym mx my Eq). reflexivity.
  - rewrite (Pos.compare_cont_antisym mx my Eq). reflexivity.
Qed.

Lemma SFeqb_comm (x y : spec_float) : SFeqb x y = SFeqb y x.
Proof.
  unfold SFeqb. rewrite (SFcompare_antisym x y).
  destruct (SFcompare x y) as [[| |] |]; reflexivity.
Qed.

Lemma tabulate_ext {A} (s : list nat) (g g' : list nat -> A) :
  (forall idx, g idx = g' idx) -> tabulate s g = tabulate s g'.
Proof.
  intros Hg. unfold tabulate. f_equal. apply map_ext, Hg.
Qed.

End NanEquals.

Section NanEqualsClaims.

Import Np.

(** C4.  For well-formed arrays (or scalars) [a] and [b] whose shapes
    broadcast to [s], [nan_equals a b] returns a boolean array of shape
    [s] whose element at every position is true exactly when the
    elements of [a] and [b] broadcast to that position are equal under
    IEEE equality or are both NaN.  On scalars, [nan_equals(nan, nan)]
    is true, [nan_equals(1.0, nan)] is false and [nan_equals(1.0, 1.0)]
    is true. *)
Theorem nan_equals_elementwise (a b : ndarray B64.t) (s : list nat) :
  wf a -> wf b ->
  broadcast_shapes (shape a) (shape b) = Some s ->
  (exists r,
      nan_equals a b = Ok r /\ shape r = s /\
      forall idx, valid s idx ->
        let x := item a (bidx (shape a) idx) in
        let y := item b (bidx (shape b) idx) in
        item r idx = SFeqb x y || (B64.is_nan x && B64.is_nan y)) /\
  nan_equals (scalar B64.nan) (scalar B64.nan) = Ok (scalar true) /\
  nan_equals (scalar (B64.of_Z 1)) (scalar B64.nan) = Ok (scalar false) /\
  nan_equals (scalar (B64.of_Z 1)) (scalar (B64.of_Z 1)) = Ok (scalar true).
Proof.
  intros Hwa Hwb Hs. split; [| split; [| split]]; try reflexivity.
  destruct (nan_equals_spec Hwa Hwb Hs) as [r [Hr [Hsr [_ Hitem]]]].
  exists r. split; [exact Hr |]. split; [exact Hsr |].
  intros idx Hv. exact (Hitem idx Hv).
Qed.

Lemma nan_equals_elementwise_witness :
  wf Ref.sample_column /\ wf Ref.sample_row /\
  broadcast_shapes (shape Ref.sample_column) (shape Ref.sample_row)
    = Some [2; 3]%nat /\
  exists r,
    nan_equals Ref.sample_column Ref.sample_row = Ok r /\
    shape r = [2; 3]%nat /\
    forall idx, valid [2; 3]%nat idx ->
      let x := item Ref.sample_column (bidx (shape Ref.sample_column) idx) in
      let y := item Ref.sample_row (bidx (shape Ref.sample_row) idx) in
      item r idx = SFeqb x y || (B64.is_nan x && B64.is_nan y).
Proof.
  split; [reflexivity |]. split; [reflexivity |]. split; [reflexivity |].
  exact (proj1 (@nan_equals_elementwise Ref.sample_column Ref.sample_row
                  [2; 3]%nat eq_refl eq_refl eq_refl)).
Defined.

(** C9.  [nan_equals] is symmetric: exchanging the arguments gives the
    same result, element by element (and the same error when the shapes
    do not broadcast). *)
Theorem nan_equals_symmetric (a b : ndarray B64.t) :
  nan_equals a b = nan_equals b a.
Proof.
  unfold nan_equals, broadcast2. cbn [shape map1].
  rewrite (broadcast_shapes_comm (shape b) (shape a)).
  destruct (broadcast_shapes (shape a) (shape b)) as [s |]; [| reflexivity].
  cbn [Py.bind].
  rewrite (tabulate_ext s
             (fun idx => feqb (item b (bidx (shape b) idx))
                              (item a (bidx (shape a) idx)))
             (fun idx => feqb (item a (bidx (shape a) idx))
                              (item b (bidx (shape b) idx))))
    by (intros idx; apply SFeqb_comm).
  rewrite (tabulate_ext s
             (fun idx => item (map1 isnan b) (bidx (shape b) idx)
                         && item (map1 isnan a) (bidx (shape a) idx))
             (fun idx => item (map1 isnan a) (bidx (shape a) idx)
                         && item (map1 isnan b) (bidx (shape b) idx)))
    by (intros idx; apply andb_comm).
  reflexivity.
Qed.

End NanEqualsClaims.

(** ** [distort_image] *)

Section Grid.

Import Np.

Lemma size_of_2d (m n : nat) : size_of [m; n] = (m * n)%nat.
Proof. cbn. lia. Qed.

Lemma length_tabulate {A} (s : list nat) (g : list nat -> A) :
  List.length (data (tabulate s g)) = size_of s.
Proof. apply wf_tabulate. Qed.

Lemma valid_2d (m n i k : nat) : (i < m)%nat -> (k < n)%nat -> valid [m; n] [i; k].
Proof.
  intros Hi Hk. constructor; [exact Hi | constructor; [exact Hk | constructor]].
Qed.

Lemma nth_tabulate_2d {A} (m n : nat) (g : list nat -> A) (i k : nat) (d : A) :
  (i < m)%nat -> (k < n)%nat ->
  nth (i * n + k) (data (tabulate [m; n] g)) d = g [i; k].
Proof.
  intros Hi Hk.
  assert (Hv : valid [m; n] [i; k]) by (apply valid_2d; assumption).
  replace (i * n + k)%nat with (ravel [m; n] [i; k]) by (cbn; lia).
  unfold tabulate. cbn [data].
  rewrite (nth_map_in g _ []).
  - rewrite nth_indices by exact Hv. reflexivity.
  - rewrite length_indices. apply ravel_lt, Hv.
Qed.

Lemma nth_tabulate_flat {A} (m n : nat) (g : list nat -> A) (k : nat) (d : A) :
  (k < m * n)%nat ->
  nth k (data (tabulate [m; n] g)) d = g [(k / n)%nat; (k mod n)%nat].
Proof.
  intros Hk.
  assert (Hn : n <> 0%nat) by nia.
  rewrite (Nat.div_mod_eq k n) at 1.
  rewrite (Nat.mul_comm n (k / n)).
  apply nth_tabulate_2d.
  - apply Nat.Div0.div_lt_upper_bound. lia.
  - apply Nat.mod_upper_bound, Hn.
Qed.



Lemma list_eq_nth {A} (l l' : list A) (n : nat) (d : A) :
  List.length l = n -> List.length l' = n ->
  (forall k, (k < n)%nat -> nth k l d = nth k l' d) -> l = l'.
Proof.
  intros Hl Hl' Hnth. apply (nth_ext l l' d d).
  - congruence.
  - intros k Hk. apply Hnth. lia.
Qed.

Lemma nth_map_seq {A} (f : nat -> A) (n k : nat) (d : A) :
  (k < n)%nat -> nth k (map f (seq 0 n)) d = f k.
Proof.
  intros Hk. rewrite (nth_map_in f _ 0%nat) by (rewrite length_seq; exact Hk).
  rewrite seq_nth by exact Hk. reflexivity.
Qed.

Lemma meshgrid_pixel_grid (w h : nat) :
  let '(j_grid, i_grid) := meshgrid_xy (arange w) (arange h) in
  row_stack (reshape_row j_grid) (reshape_row i_grid) = Ok (Ref.pixel_grid w h).
Proof.
  unfold meshgrid_xy, arange. cbn [data]. rewrite !length_map, !length_seq.
  unfold row_stack, atleast_2d, reshape_row. cbn [shape data].
  rewrite !length_tabulate, size_of_2d.
  destruct (list_eq_dec Nat.eq_dec [(h * w)%nat] [(h * w)%nat]) as [_ | Hne];
    [| congruence].
  unfold Ref.pixel_grid. f_equal. f_equal. f_equal.
  - apply (@list_eq_nth _ _ _ (h * w)%nat 0%Z).
    + rewrite length_tabulate. apply size_of_2d.
    + rewrite length_map, length_seq. reflexivity.
    + intros k Hk. rewrite nth_tabulate_flat by exact Hk. cbn [nth].
      rewrite !nth_map_seq; [reflexivity | exact Hk |].
      apply Nat.mod_upper_bound. nia.
  - apply (@list_eq_nth _ _ _ (h * w)%nat 0%Z).
    + rewrite length_tabulate. apply size_of_2d.
    + rewrite length_map, length_seq. reflexivity.
    + intros k Hk. rewrite nth_tabulate_flat by exact Hk. cbn [nth].
      rewrite !nth_map_seq; [reflexivity | exact Hk |].
      apply Nat.Div0.div_lt_upper_bound. lia.
Qed.

Lemma item_2d {A} `{Default A} (a : ndarray A) (m n i k : nat) :
  shape a = [m; n] -> item a [i; k] = nth (i * n + k) (data a) dflt.
Proof.
  intros Hs. unfold item. rewrite Hs. f_equal. cbn. lia.
Qed.

Lemma item_pixel_grid (w h k : nat) :
  (k < h * w)%nat ->
  item (Ref.pixel_grid w h) [0%nat; k] = Z.of_nat (k mod w) /\
  item (Ref.pixel_grid w h) [1%nat; k] = Z.of_nat (k / w).
Proof.
  intros Hk. rewrite !(@item_2d _ _ (Ref.pixel_grid w h) 2%nat (h * w)%nat) by reflexivity.
  unfold Ref.pixel_grid. cbn [data]. split.
  - rewrite app_nth1 by (rewrite length_map, length_seq; lia).
    apply (nth_map_seq (fun k => Z.of_nat (k mod w))), Hk.
  - rewrite app_nth2 by (rewrite length_map, length_seq; lia).
    rewrite length_map, length_seq.
    replace (1 * (h * w) + k - h * w)%nat with k by lia.
    apply (nth_map_seq (fun k => Z.of_nat (k / w))), Hk.
Qed.

Lemma size_of_1d (n : nat) : size_of [n] = n.
Proof. cbn. lia. Qed.

Lemma first_row {A B} (f : A -> B) (l : list A) (n : nat) (d : A) :
  List.length l = (3 * n)%nat ->
  firstn n (skipn (0 * n) (map f (firstn (2 * n) l)))
  = map (fun k => f (nth k l d)) (seq 0 n).
Proof.
  intros Hl. apply (@list_eq_nth _ _ _ n (f d)).
  - rewrite length_firstn, length_skipn, length_map, length_firstn. lia.
  - rewrite length_map, length_seq. reflexivity.
  - intros k Hk. rewrite nth_firstn, nth_skipn.
    destruct (Nat.ltb_spec k n) as [_ | ?]; [| lia].
    rewrite Nat.mul_0_l, Nat.add_0_l, map_nth, nth_firstn.
    destruct (Nat.ltb_spec k (2 * n)) as [_ | ?]; [| lia].
    rewrite (nth_map_seq (fun k => f (nth k l d))) by exact Hk. reflexivity.
Qed.

Lemma second_row {A B} (f : A -> B) (l : list A) (n : nat) (d : A) :
  List.length l = (3 * n)%nat ->
  firstn n (skipn (1 * n) (map f (firstn (2 * n) l)))
  = map (fun k => f (nth (n + k) l d)) (seq 0 n).
Proof.
  intros Hl. apply (@list_eq_nth _ _ _ n (f d)).
  - rewrite length_firstn, length_skipn, length_map, length_firstn. lia.
  - rewrite length_map, length_seq. reflexivity.
  - intros k Hk. rewrite nth_firstn, nth_skipn.
    destruct (Nat.ltb_spec k n) as [_ | ?]; [| lia].
    rewrite Nat.mul_1_l, map_nth, nth_firstn.
    destruct (Nat.ltb_spec (n + k) (2 * n)) as [_ | ?]; [| lia].
    rewrite (nth_map_seq (fun k => f (nth (n + k) l d))) by exact Hk. reflexivity.
Qed.

End Grid.

Section DistortImage.

Import Np.

Context {R P : Type} `{PyFloat R}.
Variable interpolate : Z -> Np.ndarray P -> R -> R -> option P.

Lemma guard_2d (a b w h : nat) :
  exists g, broadcast2 Nat.eqb (array1 [a; b]) (array1 [w; h]) = Ok g /\
  Np.all g = ((a =? w) && (b =? h))%nat.
Proof.
  eexists. split; [reflexivity |]. cbn. rewrite !andb_true_r. reflexivity.
Qed.

Lemma to_cv_ok (interp : Interp) : exists code, to_cv interp = Ok code.
Proof. destruct interp; eexists; reflexivity. Qed.

Lemma item_pixel_to_camera (camera : Camera.t R) (w h t k : nat) :
  (t < 3)%nat -> (k < h * w)%nat ->
  item (Camera._pixel_to_camera camera (Ref.pixel_grid w h)) [t; k]
  = Ref.ray_component t (Camera.pixel_to_camera_ray camera
                       (Z.of_nat (k mod w), Z.of_nat (k / w))).
Proof.
  intros Ht Hk. unfold Camera._pixel_to_camera.
  change (nth 1 (shape (Ref.pixel_grid w h)) 0%nat) with (h * w)%nat.
  rewrite item_tabulate by (apply valid_2d; assumption).
  cbn [nth]. destruct (item_pixel_grid w h Hk) as [-> ->].
  unfold Ref.ray_component.
  destruct (Camera.pixel_to_camera_ray camera _) as [[x y] z].
  destruct t as [| [| t]]; reflexivity.
Qed.

Lemma dot_K_undistort (camera : Camera.t R) (xyz : ndarray R) (n : nat)
    (k00 k01 k02 k10 k11 k12 k20 k21 k22 : R) :
  Camera.undistort_intrinsic_matrix camera
    = ((k00, k01, k02), (k10, k11, k12), (k20, k21, k22)) ->
  shape xyz = [3%nat; n] ->
  exists k_xyz,
    dot (Camera._K_undistort camera) xyz = Ok k_xyz /\
    shape k_xyz = [3%nat; n] /\
    List.length (data k_xyz) = (3 * n)%nat /\
    forall k, (k < n)%nat ->
      nth k (data k_xyz) dflt
        = fadd (fadd (fmul k00 (item xyz [0%nat; k])) (fmul k01 (item xyz [1%nat; k])))
               (fmul k02 (item xyz [2%nat; k])) /\
      nth (n + k) (data k_xyz) dflt
        = fadd (fadd (fmul k10 (item xyz [0%nat; k])) (fmul k11 (item xyz [1%nat; k])))
               (fmul k12 (item xyz [2%nat; k])).
Proof.
  intros HK Hs. unfold dot, Camera._K_undistort. rewrite HK. cbn [shape].
  rewrite Hs. cbn [Nat.eqb]. eexists. split; [reflexivity |].
  split; [reflexivity |]. split; [rewrite length_tabulate, size_of_2d; reflexivity |].
  intros k Hk. split.
  - change k with (0 * n + k)%nat at 1.
    rewrite nth_tabulate_2d by lia. reflexivity.
  - replace (n + k)%nat with (1 * n + k)%nat at 1 by lia.
    rewrite nth_tabulate_2d by lia. reflexivity.
Qed.

Lemma undistorted_pixel_eq (camera : Camera.t R) (j i : nat)
    (k00 k01 k02 k10 k11 k12 k20 k21 k22 : R) :
  Camera.undistort_intrinsic_matrix camera
    = ((k00, k01, k02), (k10, k11, k12), (k20, k21, k22)) ->
  let ray := Camera.pixel_to_camera_ray camera (Z.of_nat j, Z.of_nat i) in
  Ref.undistorted_pixel camera j i =
  (astype_float32
     (fadd (fadd (fmul k00 (Ref.ray_component 0 ray)) (fmul k01 (Ref.ray_component 1 ray)))
           (fmul k02 (Ref.ray_component 2 ray))),
   astype_float32
     (fadd (fadd (fmul k10 (Ref.ray_component 0 ray)) (fmul k11 (Ref.ray_component 1 ray)))
           (fmul k12 (Ref.ray_component 2 ray)))).
Proof.
  intros HK ray. unfold Ref.undistorted_pixel. fold ray. rewrite HK.
  destruct ray as [[x y] z]. reflexivity.
Qed.

Lemma distort_image_conforming (camera : Camera.t R) (image : ndarray P)
    (nodata : P) (interp : Interp) (w h : nat) :
  Camera._im_size camera = (w, h) -> shape image = [h; w] ->
  exists code, to_cv interp = Ok code /\
  distort_image interpolate camera image nodata interp =
    Ok (Cv2.remap_transparent interpolate image
         (mk [h; w] (map (fun k => fst (Ref.undistorted_pixel camera (k mod w) (k / w)))
                         (seq 0 (h * w))))
         (mk [h; w] (map (fun k => snd (Ref.undistorted_pixel camera (k mod w) (k / w)))
                         (seq 0 (h * w))))
         code (full_like image nodata)).
Proof.
  intros Him Hshape.
  destruct (to_cv_ok interp) as [code Hcode]. exists code. split; [exact Hcode |].
  unfold distort_image. rewrite Him, Hshape. cbn [fst snd rev app].
  destruct (guard_2d w h w h) as [g [-> Hg]]. cbn [Py.bind].
  rewrite Hg, !Nat.eqb_refl. cbn [negb andb].
  pose proof (meshgrid_pixel_grid w h) as Hgrid.
  destruct (meshgrid_xy (arange w) (arange h)) as [j_grid i_grid].
  rewrite Hgrid. cbn [Py.bind].
  destruct (Camera.undistort_intrinsic_matrix camera)
    as [[[[k00 k01] k02] [[k10 k11] k12]] [[k20 k21] k22]] eqn:HK.
  destruct (dot_K_undistort camera
              (Camera._pixel_to_camera camera (Ref.pixel_grid w h))
              (n := (h * w)%nat) HK eq_refl)
    as [k_xyz [-> [Hs [Hlen Hnth]]]].
  cbn [Py.bind]. unfold take_rows. rewrite Hs. cbn [Py.bind Nat.min].
  unfold row. cbn [shape map1 data Nat.ltb Nat.leb Py.bind].
  rewrite !size_of_1d.
  rewrite (@first_row _ _ astype_float32 (data k_xyz) _ dflt Hlen).
  rewrite (@second_row _ _ astype_float32 (data k_xyz) _ dflt Hlen).
  unfold reshape. cbn [data]. rewrite !length_map, !length_seq, size_of_2d.
  rewrite Nat.eqb_refl. cbn [Py.bind]. rewrite Hcode. cbn [Py.bind].
  f_equal. f_equal.
  - f_equal. apply map_ext_in. intros k Hk. apply in_seq in Hk.
    destruct (Hnth k ltac:(lia)) as [-> _].
    rewrite !item_pixel_to_camera by lia.
    rewrite (undistorted_pixel_eq camera (k mod w) (k / w) HK). reflexivity.
  - f_equal. apply map_ext_in. intros k Hk. apply in_seq in Hk.
    destruct (Hnth k ltac:(lia)) as [_ ->].
    rewrite !item_pixel_to_camera by lia.
    rewrite (undistorted_pixel_eq camera (k mod w) (k / w) HK). reflexivity.
Qed.
End DistortImage.

Section DistortImageClaims.

Import Np.

Context {R P : Type} `{PyFloat R}.
Variable interpolate : Z -> Np.ndarray P -> R -> R -> option P.


Lemma nth_error_map_seq {A} (f : nat -> A) (n k : nat) :
  (k < n)%nat -> nth_error (map f (seq 0 n)) k = Some (f k).
Proof.
  intros Hk. rewrite nth_error_map.
  rewrite (nth_error_nth' _ 0%nat) by (rewrite length_seq; exact Hk).
  rewrite seq_nth by exact Hk. reflexivity.
Qed.







(** C6.  For a well-formed image of the camera's size, the image that
    [distort_image] returns has the shape of the input (its element type
    is that of the input by typing) and as many elements, and each of
    its pixels is the nodata value or a value interpolated from the
    input image. *)
Theorem distort_image_output (camera : Camera.t R) (image : ndarray P)
    (nodata : P) (interp : Interp) (w h : nat) :
  Camera._im_size camera = (w, h) ->
  shape image = [h; w] ->
  wf image ->
  exists interpolation out,
    to_cv interp = Ok interpolation /\
    distort_image interpolate camera image nodata interp = Ok out /\
    shape out = shape image /\
    wf out /\
    Forall (fun p => p = nodata \/
                     exists x y, interpolate interpolation image x y = Some p)
           (data out).
Proof.
  intros Him Hshape Hwf.
  destruct (distort_image_conforming interpolate camera image nodata interp
              Him Hshape) as [code [Hcode Hout]].
  exists code. eexists. split; [exact Hcode |]. split; [exact Hout |].
  split; [reflexivity |]. split.
  - unfold wf, Cv2.remap_transparent, full_like. cbn [shape data].
    rewrite length_map, !length_combine, !length_map, length_seq.
    rewrite Hwf, Hshape, size_of_2d. lia.
  - unfold Cv2.remap_transparent, full_like. cbn [data].
    apply Forall_forall. intros p Hp. apply in_map_iff in Hp.
    destruct Hp as [[d [x y]] [Hp Hin]].
    apply in_combine_l in Hin. apply in_map_iff in Hin.
    destruct Hin as [p0 [Hd _]]. subst d.
    destruct (interpolate code image x y) as [v |] eqn:Hv.
    + right. exists x, y. congruence.
    + left. congruence.
Qed.

End DistortImageClaims.

Section DistortImageSamples.

Import Np.

(** The sample camera shifts the source one column to the right: the
    last column of the output has no source and holds the nodata
    value. *)
Example distort_image_sample :
  distort_image Ref.nearest_neighbour Ref.sample_camera Ref.sample_image
                0%nat nearest
  = Ok (mk [2; 3]%nat [11; 12; 0; 14; 15; 0]%nat).
Proof. vm_compute. reflexivity. Qed.

(** NumPy broadcasts a 1-element shape against the 2-element image size:
    a 1-D buffer of one element passes the check of a camera of one
    pixel.  This is the one case the statement on the dimension check
    leaves out. *)
Example distort_image_one_element_buffer :
  distort_image Ref.nearest_neighbour Ref.one_pixel_camera
                Ref.one_element_buffer 0%nat nearest
  = Ok (mk [1]%nat [0]%nat).
Proof. vm_compute. reflexivity. Qed.



Lemma distort_image_output_witness :
  Camera._im_size Ref.sample_camera = (3, 2)%nat /\
  shape Ref.sample_image = [2; 3]%nat /\
  wf Ref.sample_image /\
  exists interpolation out,
    to_cv nearest = Ok interpolation /\
    distort_image Ref.nearest_neighbour Ref.sample_camera Ref.sample_image
                  0%nat nearest = Ok out /\
    shape out = shape Ref.sample_image /\
    wf out /\
    Forall (fun p => p = 0%nat \/
                     exists x y,
                       Ref.nearest_neighbour interpolation Ref.sample_image x y
                       = Some p)
           (data out).
Proof.
  split; [reflexivity |]. split; [reflexivity |]. split; [reflexivity |].
  apply (@distort_image_output Q nat PyFloat_Q Ref.nearest_neighbour
           Ref.sample_camera Ref.sample_image 0%nat nearest 3%nat 2%nat);
    reflexivity.
Defined.

End DistortImageSamples.

(* ================================================================= *)
(** * Further properties *)

(** ** The enumerations *)

Section EnumsMore.

(** X1.  [CameraType.from_odm] returns a member exactly for the name of
    that member and, for [brown], for the alias "perspective": the
    conversion of [str(member)] gives the member back, and no other
    string is converted to it. *)
Theorem from_odm_preimage (s : string) (c : CameraType.t) :
  CameraType.from_odm s = Ok c <->
  s = CameraType.__str__ c
  \/ (s = "perspective"%string /\ c = CameraType.brown).
Proof.
  unfold CameraType.from_odm, CameraType.__str__.
  destruct (String.eqb_spec s "perspective") as [-> | Hp].
  - cbn. split.
    + intros E. injection E as <-. right. split; reflexivity.
    + intros [E | [_ ->]]; [| reflexivity].
      destruct c; discriminate.
  - cbn [dict_get CameraType.__members__].
    destruct (String.eqb_spec s "pinhole") as [-> | H1];
      [| destruct (String.eqb_spec s "brown") as [-> | H2];
         [| destruct (String.eqb_spec s "fisheye") as [-> | H3];
            [| destruct (String.eqb_spec s "opencv") as [-> | H4]]]].
    + cbn. split.
      * intros E. injection E as <-. left. reflexivity.
      * intros [E | [E _]]; [destruct c; try discriminate; reflexivity |
                             discriminate].
    + cbn. split.
      * intros E. injection E as <-. left. reflexivity.
      * intros [E | [E _]]; [destruct c; try discriminate; reflexivity |
                             discriminate].
    + cbn. split.
      * intros E. injection E as <-. left. reflexivity.
      * intros [E | [E _]]; [destruct c; try discriminate; reflexivity |
                             discriminate].
    + cbn. split.
      * intros E. injection E as <-. left. reflexivity.
      * intros [E | [E _]]; [destruct c; try discriminate; reflexivity |
                             discriminate].
    + split; [discriminate |].
      intros [E | [E _]]; [| contradiction].
      destruct c; cbn in E; contradiction.
Qed.

(** X2.  [CameraType.from_odm] returns a member for the five strings
    "perspective", "pinhole", "brown", "fisheye" and "opencv", compared
    by exact match, and raises [ValueError] for every other string; the
    lookup of the member by value never fails once the name is known. *)
Theorem from_odm_accepts (s : string) :
  ((exists c, CameraType.from_odm s = Ok c) <-> In s CameraType.odm_types) /\
  (raises_ValueError (CameraType.from_odm s) <-> ~ In s CameraType.odm_types).
Proof.
  assert (Hcases : (In s CameraType.odm_types
                    /\ exists c, CameraType.from_odm s = Ok c)
                   \/ (~ In s CameraType.odm_types
                       /\ raises_ValueError (CameraType.from_odm s))).
  { unfold CameraType.from_odm, CameraType.odm_types.
    destruct (String.eqb_spec s "perspective") as [-> | Hp];
      [left; split; [cbn; tauto | eexists; reflexivity] |].
    cbn [dict_get CameraType.__members__].
    destruct (String.eqb_spec s "pinhole") as [-> | H1];
      [left; split; [cbn; tauto | eexists; reflexivity] |].
    destruct (String.eqb_spec s "brown") as [-> | H2];
      [left; split; [cbn; tauto | eexists; reflexivity] |].
    destruct (String.eqb_spec s "fisheye") as [-> | H3];
      [left; split; [cbn; tauto | eexists; reflexivity] |].
    destruct (String.eqb_spec s "opencv") as [-> | H4];
      [left; split; [cbn; tauto | eexists; reflexivity] |].
    right. split.
    - cbn. intros [E | [E | [E | [E | [E | []]]]]]; congruence.
    - unfold raises_ValueError. eauto. }
  destruct Hcases as [[Hin [c Hc]] | [Hnot [msg Hmsg]]].
  - split; split; eauto.
    + intros [msg Hmsg]. congruence.
    + intros Hnot. contradiction.
  - split; split.
    + intros [c Hc]. congruence.
    + intros Hin. contradiction.
    + intros _. exact Hnot.
    + intros _. exists msg. exact Hmsg.
Qed.

(** X3.  The two flags of a CSV format identify it: two formats with
    the same [is_opk] and the same [is_xyz] are the same format, and
    each of the four combinations of flags is the format of one
    member. *)
Theorem csv_format_flags (f g : CsvFormat.t) :
  (f = g <->
   CsvFormat.is_opk f = CsvFormat.is_opk g
   /\ CsvFormat.is_xyz f = CsvFormat.is_xyz g) /\
  (forall opk xyz : bool,
      exists h, CsvFormat.is_opk h = opk /\ CsvFormat.is_xyz h = xyz).
Proof.
  split.
  - split.
    + intros ->. split; reflexivity.
    + intros [Ho Hx]. destruct f, g; cbn in Ho, Hx; congruence.
  - intros [|] [|].
    + exists CsvFormat.xyz_opk. split; reflexivity.
    + exists CsvFormat.lla_opk. split; reflexivity.
    + exists CsvFormat.xyz_rpy. split; reflexivity.
    + exists CsvFormat.lla_rpy. split; reflexivity.
Qed.

(** X4.  [Interp.to_rio] never raises [KeyError]: every method has a
    rasterio resampling of its own name, and different methods have
    different resamplings. *)
Theorem to_rio_total_injective (m : Interp) :
  (exists r, InterpRio.to_rio m = Item r
             /\ dict_get Resampling.__members__ (_name_ m) = Some r) /\
  (forall m' : Interp, InterpRio.to_rio m = InterpRio.to_rio m' <-> m = m').
Proof.
  split.
  - destruct m; eexists; split; reflexivity.
  - intros m'. split; [| intros ->; reflexivity].
    destruct m, m'; intros E; try reflexivity; discriminate.
Qed.

(** X5.  [Interp.to_cv] gives different methods different OpenCV
    constants. *)
Theorem to_cv_injective (m m' : Interp) : to_cv m = to_cv m' <-> m = m'.
Proof.
  split; [| intros ->; reflexivity].
  destruct m, m'; intros E; try reflexivity; discriminate.
Qed.

End EnumsMore.

(** ** [expand_window_to_grid], further *)

From Stdlib Require Import Lqa.

Section ExpandWindowMore.

Local Open Scope Q_scope.





Lemma frac_shift (x : Q) (z : Z) : Ref.frac (x + inject_Z z) == Ref.frac x.
Proof.
  unfold Ref.frac. rewrite Qfloor_plus_Z, inject_Z_plus. ring.
Qed.

Lemma frac_inject_Z (z : Z) : Ref.frac (inject_Z z) == 0.
Proof. unfold Ref.frac. rewrite Qfloor_Z. ring. Qed.








End ExpandWindowMore.

(** ** [nan_equals], further *)

Section NanEqualsMore.

Import Np.

Lemma indices_valid (s idx : list nat) : In idx (indices s) -> valid s idx.
Proof.
  unfold valid. revert idx. induction s as [| d s IH]; intros idx Hin.
  - cbn in Hin. destruct Hin as [<- | []]. constructor.
  - cbn [indices] in Hin. apply in_flat_map in Hin.
    destruct Hin as [i [Hi Hin]]. apply in_seq in Hi.
    apply in_map_iff in Hin. destruct Hin as [idx' [<- Hin']].
    constructor; [lia | apply IH, Hin'].
Qed.

Lemma tabulate_ext_valid {A} (s : list nat) (g g' : list nat -> A) :
  (forall idx, valid s idx -> g idx = g' idx) -> tabulate s g = tabulate s g'.
Proof.
  intros Hg. unfold tabulate. f_equal. apply map_ext_in.
  intros idx Hin. apply Hg, indices_valid, Hin.
Qed.

Lemma item_in_range {A} `{Default A} (a : ndarray A) (idx : list nat)
    (Q : A -> Prop) :
  wf a -> valid (shape a) idx -> Forall Q (data a) -> Q (item a idx).
Proof.
  intros Hwf Hv Hall. unfold item.
  rewrite Forall_forall in Hall. apply Hall, nth_In.
  rewrite Hwf. apply ravel_lt, Hv.
Qed.

(** The array that [nan_equals] returns for shapes that broadcast. *)
Lemma nan_equals_unfold {R} `{PyFloat R} (a b : ndarray R) (s : list nat) :
  broadcast_shapes (shape a) (shape b) = Some s ->
  nan_equals a b =
  Ok (tabulate s (fun idx =>
        feqb (item a (bidx (shape a) idx)) (item b (bidx (shape b) idx))
        || (item (map1 isnan a) (bidx (shape a) idx)
            && item (map1 isnan b) (bidx (shape b) idx)))).
Proof.
  intros Hs. unfold nan_equals, broadcast2. rewrite Hs. cbn [Py.bind].
  change (shape (map1 isnan a)) with (shape a).
  change (shape (map1 isnan b)) with (shape b).
  rewrite Hs. cbn [Py.bind].
  set (eq := tabulate s (fun idx =>
               feqb (item a (bidx (shape a) idx)) (item b (bidx (shape b) idx)))).
  set (both := tabulate s (fun idx =>
                 item (map1 isnan a) (bidx (shape a) idx)
                 && item (map1 isnan b) (bidx (shape b) idx))).
  change (shape eq) with s. change (shape both) with s.
  rewrite broadcast_shapes_refl. f_equal.
  apply tabulate_ext_valid. intros idx Hv.
  rewrite (bidx_id Hv). subst eq both.
  rewrite !item_tabulate by exact Hv. reflexivity.
Qed.

(** X10.  [nan_equals] raises [ValueError] exactly when the shapes of
    its arguments do not broadcast; otherwise it returns an array of
    the broadcast shape. *)
Theorem nan_equals_raises {R} `{PyFloat R} (a b : ndarray R) :
  (raises_ValueError (nan_equals a b)
   <-> broadcast_shapes (shape a) (shape b) = None) /\
  (forall s, broadcast_shapes (shape a) (shape b) = Some s <->
             exists r, nan_equals a b = Ok r /\ shape r = s /\ wf r).
Proof.
  destruct (broadcast_shapes (shape a) (shape b)) as [s |] eqn:Hs.
  - rewrite (nan_equals_unfold a b Hs). split.
    + split; [intros [msg Hmsg]; discriminate | discriminate].
    + intros s'. split.
      * intros E. injection E as <-. eexists.
        split; [reflexivity |]. split; [reflexivity | apply wf_tabulate].
      * intros [r [E [Hr _]]]. injection E as <-. cbn in Hr. congruence.
  - assert (Hraise : raises_ValueError (nan_equals a b)).
    { unfold nan_equals, broadcast2, raises_ValueError. rewrite Hs.
      cbn [Py.bind]. eauto. }
    split.
    + split; [reflexivity | intros _; exact Hraise].
    + intros s'. split; [discriminate |].
      intros [r [E _]]. destruct Hraise as [msg Hmsg]. congruence.
Qed.

(** X11.  When one of the arguments holds no NaN, [nan_equals] is the
    ordinary comparison [a == b], errors included. *)
Theorem nan_equals_without_nan {R} `{PyFloat R} (a b : ndarray R) :
  wf a -> wf b ->
  Forall (fun x => isnan x = false) (data a)
  \/ Forall (fun x => isnan x = false) (data b) ->
  nan_equals a b = broadcast2 feqb a b.
Proof.
  intros Hwa Hwb Hnan.
  destruct (broadcast_shapes (shape a) (shape b)) as [s |] eqn:Hs.
  - rewrite (nan_equals_unfold a b Hs). unfold broadcast2. rewrite Hs.
    f_equal. apply tabulate_ext_valid. intros idx Hv.
    rewrite item_map1; [| exact Hwa | eapply bidx_valid_l; eassumption].
    rewrite item_map1; [| exact Hwb | eapply bidx_valid_r; eassumption].
    destruct Hnan as [Ha | Hb].
    + assert (Hx : isnan (item a (bidx (shape a) idx)) = false).
      { apply (@item_in_range _ _ a _ (fun x => isnan x = false));
          [exact Hwa | eapply bidx_valid_l; eassumption | exact Ha]. }
      rewrite Hx. cbn [andb]. apply orb_false_r.
    + assert (Hy : isnan (item b (bidx (shape b) idx)) = false).
      { apply (@item_in_range _ _ b _ (fun x => isnan x = false));
          [exact Hwb | eapply bidx_valid_r; eassumption | exact Hb]. }
      rewrite Hy, andb_false_r. apply orb_false_r.
  - unfold nan_equals, broadcast2. rewrite Hs. reflexivity.
Qed.

Lemma SFeqb_refl_or_nan (x : spec_float) :
  SFeqb x x || (B64.is_nan x && B64.is_nan x) = true.
Proof.
  destruct x as [s | s | | s m e]; try reflexivity.
  - destruct s; reflexivity.
  - unfold SFeqb. cbn [SFcompare].
    destruct s; rewrite Z.compare_refl, Pos.compare_cont_refl; reflexivity.
Qed.

(** X12.  [nan_equals] is reflexive: comparing a well-formed array with
    itself gives an array of its shape whose elements are all true,
    also where the array holds NaN. *)
Theorem nan_equals_reflexive (a : ndarray B64.t) :
  wf a ->
  exists r,
    nan_equals a a = Ok r /\ shape r = shape a /\ wf r /\
    Forall (fun b => b = true) (data r).
Proof.
  intros Hwa.
  pose proof (broadcast_shapes_refl (shape a)) as Hs.
  rewrite (nan_equals_unfold a a Hs). eexists.
  split; [reflexivity |]. split; [reflexivity |]. split; [apply wf_tabulate |].
  unfold tabulate. cbn [data]. apply Forall_forall. intros v Hin.
  apply in_map_iff in Hin. destruct Hin as [idx [<- Hin]].
  apply indices_valid in Hin.
  rewrite item_map1; [| exact Hwa | eapply bidx_valid_l; eassumption].
  apply SFeqb_refl_or_nan.
Qed.

End NanEqualsMore.

(** ** [utm_crs_from_latlon], further *)

Section UtmMore.

Local Open Scope Q_scope.








(** X15.  In binary64, a longitude that is NaN or infinite makes
    [utm_crs_from_latlon] raise [ValueError], whatever the latitude:
    the zone number is NaN and [int] refuses it. *)
Theorem utm_crs_from_latlon_nonfinite (lat lon : B64.t) :
  lon = S754_nan \/ (exists s, lon = S754_infinity s) ->
  raises_ValueError (utm_crs_from_latlon lat lon).
Proof.
  intros [-> | [[|] ->]]; vm_compute; eexists; reflexivity.
Qed.

Lemma utm_crs_from_latlon_nonfinite_witness :
  (B64.nan = S754_nan \/ (exists s, B64.nan = S754_infinity s)) /\
  raises_ValueError (utm_crs_from_latlon (B64.of_Z 0) B64.nan).
Proof.
  split; [left; reflexivity |].
  apply (@utm_crs_from_latlon_nonfinite (B64.of_Z 0) B64.nan).
  left. reflexivity.
Defined.

(** X16.  In binary64, the hemisphere test [lat >= 0] sends a NaN
    latitude to the southern codes (no error is raised) and the
    latitude -0.0 to the northern ones: for every longitude the result
    for NaN is that for -1.0, and the result for -0.0 is that for
    1.0. *)
Theorem utm_crs_from_latlon_lat_edge (lon : B64.t) :
  utm_crs_from_latlon B64.nan lon = utm_crs_from_latlon (B64.of_Z (-1)) lon /\
  utm_crs_from_latlon (S754_zero true) lon
    = utm_crs_from_latlon (B64.of_Z 1) lon.
Proof.
  unfold utm_crs_from_latlon. split; reflexivity.
Qed.

End UtmMore.

(** ** [distort_image], further *)

Section DistortImageMore.

Import Np.

Context {R P : Type} `{PyFloat R}.
Variable interpolate : Z -> Np.ndarray P -> R -> R -> option P.

Lemma combine_map {A B C} (f : A -> B) (g : A -> C) (l : list A) :
  combine (map f l) (map g l) = map (fun x => (f x, g x)) l.
Proof.
  induction l as [| x l IH]; [reflexivity |]. cbn. rewrite IH. reflexivity.
Qed.

Lemma map_const_seq {A B} (c : B) (l : list A) :
  map (fun _ => c) l = map (fun _ => c) (seq 0 (List.length l)).
Proof. rewrite !map_const, length_seq. reflexivity. Qed.

(** The whole buffer of the image that [distort_image] returns for a
    well-formed image of the camera's size. *)
Lemma distort_image_buffer (camera : Camera.t R) (image : ndarray P)
    (nodata : P) (interp : Interp) (w h : nat) :
  Camera._im_size camera = (w, h) -> shape image = [h; w] -> wf image ->
  exists interpolation,
    to_cv interp = Ok interpolation /\
    distort_image interpolate camera image nodata interp =
    Ok (mk [h; w]
          (map (fun k =>
                  Ref.resampled_or_nodata interpolate interpolation image nodata
                    (Ref.undistorted_pixel camera (k mod w) (k / w)))
               (seq 0 (h * w)))).
Proof.
  intros Him Hshape Hwf.
  destruct (distort_image_conforming interpolate camera image nodata interp
              Him Hshape) as [code [Hcode ->]].
  exists code. split; [exact Hcode |].
  unfold Cv2.remap_transparent, full_like. cbn [shape data].
  rewrite Hshape. f_equal. f_equal.
  rewrite (map_const_seq nodata (data image)), Hwf, Hshape, size_of_2d.
  rewrite (combine_map
             (fun k => fst (Ref.undistorted_pixel camera (k mod w) (k / w)))
             (fun k => snd (Ref.undistorted_pixel camera (k mod w) (k / w)))).
  rewrite (combine_map (fun _ => nodata)
             (fun k => (fst (Ref.undistorted_pixel camera (k mod w) (k / w)),
                        snd (Ref.undistorted_pixel camera (k mod w) (k / w))))).
  rewrite map_map. reflexivity.
Qed.

(** X17.  An image without dimensions or with three or more dimensions
    (a channel axis) is always rejected with [ValueError], whatever the
    camera: its reversed shape cannot be compared with the two numbers
    of the image size. *)
Theorem distort_image_rejects_channels (camera : Camera.t R)
    (image : ndarray P) (nodata : P) (interp : Interp) :
  List.length (shape image) = 0%nat \/ (3 <= List.length (shape image))%nat ->
  raises_ValueError (distort_image interpolate camera image nodata interp).
Proof.
  intros Hrank. rewrite <- length_rev in Hrank.
  unfold distort_image.
  destruct (rev (shape image)) as [| a [| b [| c l]]];
    cbn [List.length] in Hrank; try lia.
  - cbn. unfold raises_ValueError. eauto.
  - cbn. unfold raises_ValueError. eauto.
Qed.

(** X18.  When the source lookup of every pixel gives the pixel itself
    (an undistorted camera with an exact interpolation), [distort_image]
    returns the image unchanged, whatever the nodata value. *)
Theorem distort_image_identity (camera : Camera.t R) (image : ndarray P)
    (nodata : P) (interp : Interp) (w h : nat) :
  Camera._im_size camera = (w, h) -> shape image = [h; w] -> wf image ->
  (forall interpolation i j,
      to_cv interp = Ok interpolation -> (i < h)%nat -> (j < w)%nat ->
      interpolate interpolation image
        (fst (Ref.undistorted_pixel camera j i))
        (snd (Ref.undistorted_pixel camera j i))
      = nth_error (data image) (i * w + j)) ->
  distort_image interpolate camera image nodata interp = Ok image.
Proof.
  intros Him Hshape Hwf Hsame.
  destruct (@distort_image_buffer camera image nodata interp w h Him Hshape Hwf)
    as [code [Hcode ->]].
  destruct image as [s d]. cbn [shape data] in *. subst s.
  unfold wf in Hwf. cbn [shape data] in Hwf. rewrite size_of_2d in Hwf.
  f_equal. f_equal. apply nth_error_ext. intros k.
  destruct (Nat.lt_ge_cases k (h * w)) as [Hk | Hk].
  - rewrite nth_error_map_seq by exact Hk.
    assert (Hw : w <> 0%nat) by nia.
    unfold Ref.resampled_or_nodata.
    rewrite (Hsame code (k / w)%nat (k mod w)%nat Hcode).
    + rewrite (Nat.mul_comm (k / w) w), <- Nat.div_mod_eq.
      destruct (nth_error d k) as [v |] eqn:E; [reflexivity |].
      apply nth_error_None in E. lia.
    + apply Nat.Div0.div_lt_upper_bound. lia.
    + apply Nat.mod_upper_bound, Hw.
  - rewrite (proj2 (nth_error_None _ _));
      [| rewrite length_map, length_seq; exact Hk].
    symmetry. apply nth_error_None. lia.
Qed.

(** X19.  When the source lookup of every pixel is an outlier,
    [distort_image] returns an image of the same shape that holds the
    nodata value everywhere. *)
Theorem distort_image_all_outliers (camera : Camera.t R) (image : ndarray P)
    (nodata : P) (interp : Interp) (w h : nat) :
  Camera._im_size camera = (w, h) -> shape image = [h; w] -> wf image ->
  (forall interpolation i j,
      to_cv interp = Ok interpolation -> (i < h)%nat -> (j < w)%nat ->
      interpolate interpolation image
        (fst (Ref.undistorted_pixel camera j i))
        (snd (Ref.undistorted_pixel camera j i))
      = None) ->
  distort_image interpolate camera image nodata interp
  = Ok (mk (shape image) (repeat nodata (List.length (data image)))).
Proof.
  intros Him Hshape Hwf Hout.
  destruct (@distort_image_buffer camera image nodata interp w h Him Hshape Hwf)
    as [code [Hcode ->]].
  rewrite Hshape. f_equal. f_equal.
  rewrite Hwf, Hshape, size_of_2d.
  rewrite <- (length_seq (h * w) 0) at 2. rewrite <- map_const.
  apply map_ext_in. intros k Hk. apply in_seq in Hk.
  assert (Hw : w <> 0%nat) by nia.
  unfold Ref.resampled_or_nodata.
  rewrite (Hout code (k / w)%nat (k mod w)%nat Hcode);
    [reflexivity | apply Nat.Div0.div_lt_upper_bound; lia
     | apply Nat.mod_upper_bound, Hw].
Qed.

End DistortImageMore.

(** ** [validate_collection] *)

Section ValidateCollection.

Import Validate.

Variables ty atom : Type.
Variable isinstance : Validate.value ty atom -> ty -> bool.
Variable py_eq : Validate.value ty atom -> Validate.value ty atom -> bool.

Local Notation "'validate'" := (validate_collection isinstance py_eq).
Local Notation "'value'" := (Validate.value ty atom).

(** Induction on a value, with the items of lists, tuples and dicts. *)
Lemma value_nested_ind (Q : value -> Prop) :
  Q VNone ->
  (forall a, Q (VAtom a)) ->
  (forall cls, Q (VType cls)) ->
  (forall items, Forall Q items -> Q (VList items)) ->
  (forall items, Forall Q items -> Q (VTuple items)) ->
  (forall items, Forall (fun kv => Q (snd kv)) items -> Q (VDict items)) ->
  forall v, Q v.
Proof.
  intros HNone HAtom HType HList HTuple HDict.
  fix IH 1. intros [| a | cls | items | items | items].
  - exact HNone.
  - apply HAtom.
  - apply HType.
  - apply HList. revert items. fix IHitems 1. intros [| x items].
    + constructor.
    + constructor; [apply IH | apply IHitems].
  - apply HTuple. revert items. fix IHitems 1. intros [| x items].
    + constructor.
    + constructor; [apply IH | apply IHitems].
  - apply HDict. revert items. fix IHitems 1. intros [| [k x] items].
    + constructor.
    + constructor; [apply IH | apply IHitems].
Qed.

(** One step of the loop over the keys of a dict template. *)
Lemma validate_dict_cons (k : string) (t : value)
    (rest c_items : list (string * value)) :
  validate (VDict ((k, t) :: rest)) (VDict c_items) =
  match getitem c_items k with
  | Some c =>
      match validate t c with
      | Returns => validate (VDict rest) (VDict c_items)
      | Raises e => Raises e
      end
  | None => Raises (KeyError k)
  end.
Proof. reflexivity. Qed.

(** One step of the loop over the items of a collection list. *)
Lemma validate_list_cons (t0 : value) (ts : list value) (c0 c1 : value)
    (rest : list value) :
  validate (VList (t0 :: ts)) (VList (c0 :: c1 :: rest)) =
  match validate t0 c0 with
  | Returns => validate (VList (t0 :: ts)) (VList (c1 :: rest))
  | Raises e => Raises e
  end.
Proof. reflexivity. Qed.

Lemma validate_list_one (t0 : value) (ts : list value) (c0 : value) :
  validate (VList (t0 :: ts)) (VList [c0]) =
  match validate t0 c0 with
  | Returns => Returns
  | Raises e => Raises e
  end.
Proof. reflexivity. Qed.

(** X20.  A dict is accepted by a dict template exactly when it holds
    every key of the template and the value at each such key is
    accepted by the template's value at that key; keys of the dict that
    the template does not have are never looked at. *)
Theorem validate_dict_accepts (t_items c_items : list (string * value)) :
  validate (VDict t_items) (VDict c_items) = Returns <->
  Forall (fun kt => exists c, getitem c_items (fst kt) = Some c
                              /\ validate (snd kt) c = Returns)
         t_items.
Proof.
  induction t_items as [| [k t] rest IH].
  - split; [constructor | reflexivity].
  - rewrite validate_dict_cons. split.
    + intros Hok. destruct (getitem c_items k) as [c |] eqn:Hk; [| discriminate].
      destruct (validate t c) eqn:Ht; [| discriminate].
      constructor; [exists c; split; assumption | apply IH, Hok].
    + intros Hall. inversion Hall as [| x l [c [Hk Ht]] Hrest]; subst.
      cbn [fst snd] in Hk, Ht. rewrite Hk, Ht. apply IH, Hrest.
Qed.

(** X21.  The keys of a dict template are checked in their order and
    the first failure is the one reported: keys that validate can be
    dropped from the front of the template without changing the result,
    and the first key that the dict lacks raises [KeyError] with that
    key. *)
Theorem validate_dict_first_failure (ok : list (string * value))
    (c_items : list (string * value)) :
  Forall (fun kt => exists c, getitem c_items (fst kt) = Some c
                              /\ validate (snd kt) c = Returns)
         ok ->
  (forall rest,
      validate (VDict (ok ++ rest)) (VDict c_items)
      = validate (VDict rest) (VDict c_items)) /\
  (forall k t rest,
      getitem c_items k = None ->
      validate (VDict (ok ++ (k, t) :: rest)) (VDict c_items)
      = Raises (KeyError k)).
Proof.
  intros Hok.
  assert (Hdrop : forall rest,
             validate (VDict (ok ++ rest)) (VDict c_items)
             = validate (VDict rest) (VDict c_items)).
  { intros rest. induction Hok as [| [k t] ok' [c [Hk Ht]] Hok' IH].
    - reflexivity.
    - cbn [app fst snd] in *. rewrite validate_dict_cons, Hk, Ht. exact IH. }
  split; [exact Hdrop |].
  intros k t rest Hk. rewrite Hdrop, validate_dict_cons, Hk. reflexivity.
Qed.

(** X22.  Against a list template, a non-empty list is accepted exactly
    when each of its items is accepted by the first item of the
    template; the other items of the template are never used.  An empty
    list is not checked item by item: it is compared with the template
    for equality, and raises [ValueError] when they differ. *)
Theorem validate_list_items (t0 : value) (ts items : list value) :
  items <> [] ->
  (validate (VList (t0 :: ts)) (VList items) = Returns <->
   Forall (fun c => validate t0 c = Returns) items) /\
  validate (VList (t0 :: ts)) (VList items)
    = validate (VList [t0]) (VList items) /\
  (forall template : list value,
      validate (VList template) (VList [])
      = if py_eq (VList []) (VList template) then Returns
        else Raises (ValueError (VList []) (VList template))).
Proof.
  intros Hne. destruct items as [| c0 rest]; [contradiction |]. clear Hne.
  split; [| split].
  - revert c0. induction rest as [| c1 rest IH]; intros c0.
    + rewrite validate_list_one. split.
      * intros Hok. destruct (validate t0 c0) eqn:E; [| discriminate].
        constructor; [exact E | constructor].
      * intros Hall. inversion Hall as [| x l Hc0 _]; subst.
        rewrite Hc0. reflexivity.
    + rewrite validate_list_cons. split.
      * intros Hok. destruct (validate t0 c0) eqn:E; [| discriminate].
        constructor; [exact E | apply IH, Hok].
      * intros Hall. inversion Hall as [| x l Hc0 Hrest]; subst.
        rewrite Hc0. apply IH, Hrest.
  - revert c0. induction rest as [| c1 rest IH]; intros c0.
    + rewrite !validate_list_one. reflexivity.
    + rewrite !validate_list_cons, IH. reflexivity.
  - intros [| t1 template]; reflexivity.
Qed.

(** X23.  A [KeyError] names a key of the template: when validation
    raises [KeyError] with a key, that key is a key of a dict somewhere
    in the template. *)
Theorem validate_key_error_key (template coll : value) (k : string) :
  validate template coll = Raises (KeyError k) ->
  In k (template_keys template).
Proof.
  revert coll k.
  induction template as [| a | cls | t_items IH | t_items IH | t_items IH]
    using value_nested_ind; intros coll k.
  - discriminate.
  - cbn. unfold check_equal. destruct (py_eq _ _); discriminate.
  - cbn. destruct (isinstance _ _); discriminate.
  - destruct t_items as [| t0 ts];
      [cbn; unfold check_equal; destruct (py_eq _ _); discriminate |].
    destruct coll as [| a | cls | [| c0 rest] | c_items | c_items];
      try (cbn; unfold check_equal; destruct (py_eq _ _); discriminate).
    inversion IH as [| x l IH0 _]; subst.
    revert c0. induction rest as [| c1 rest IHrest]; intros c0.
    + rewrite validate_list_one. destruct (validate t0 c0) eqn:E;
        [discriminate |].
      intros Hk. injection Hk as ->.
      change (template_keys (VList (t0 :: ts)))
        with (template_keys t0 ++ template_keys (VList ts)).
      apply in_or_app. left. apply (IH0 c0 k E).
    + rewrite validate_list_cons. destruct (validate t0 c0) eqn:E.
      * apply IHrest.
      * intros Hk. injection Hk as ->.
        change (template_keys (VList (t0 :: ts)))
          with (template_keys t0 ++ template_keys (VList ts)).
        apply in_or_app. left. apply (IH0 c0 k E).
  - cbn. destruct (classes t_items) as [clss |].
    + destruct (existsb _ _); discriminate.
    + unfold check_equal. destruct (py_eq _ _); discriminate.
  - destruct coll as [| a | cls | c_items | c_items | c_items];
      try (cbn; unfold check_equal; destruct (py_eq _ _); discriminate).
    induction IH as [| [k0 t] rest IHt _ IHrest].
    + discriminate.
    + rewrite validate_dict_cons.
      change (template_keys (VDict ((k0, t) :: rest)))
        with (k0 :: template_keys t ++ template_keys (VDict rest)).
      destruct (getitem c_items k0) as [c |] eqn:Hk0.
      * destruct (validate t c) eqn:E.
        -- intros Hk. right. apply in_or_app. right. apply IHrest, Hk.
        -- intros Hk. injection Hk as ->.
           right. apply in_or_app. left. apply (IHt c k E).
      * intros Hk. injection Hk as ->. left. reflexivity.
Qed.

End ValidateCollection.

(** ** Instances of the conditional properties *)

Section MoreWitnesses.

Import Np.

Lemma nan_equals_without_nan_witness :
  wf Samples.finite_row /\ wf Ref.sample_row /\
  (Forall (fun x => isnan x = false) (data Samples.finite_row)
   \/ Forall (fun x => isnan x = false) (data Ref.sample_row)) /\
  nan_equals Samples.finite_row Ref.sample_row
  = broadcast2 feqb Samples.finite_row Ref.sample_row.
Proof.
  assert (Hfinite : Forall (fun x => isnan x = false) (data Samples.finite_row))
    by (repeat constructor).
  split; [reflexivity |]. split; [reflexivity |]. split; [left; exact Hfinite |].
  apply (@nan_equals_without_nan B64.t PyFloat_B64 Samples.finite_row
           Ref.sample_row eq_refl eq_refl (or_introl Hfinite)).
Defined.

Lemma nan_equals_reflexive_witness :
  wf Ref.sample_column /\
  exists r,
    nan_equals Ref.sample_column Ref.sample_column = Ok r /\
    shape r = shape Ref.sample_column /\ wf r /\
    Forall (fun b => b = true) (data r).
Proof.
  split; [reflexivity |].
  apply (@nan_equals_reflexive Ref.sample_column eq_refl).
Defined.

Lemma distort_image_rejects_channels_witness :
  (List.length (shape Samples.channel_image) = 0%nat
   \/ (3 <= List.length (shape Samples.channel_image))%nat) /\
  raises_ValueError
    (distort_image Ref.nearest_neighbour Ref.sample_camera
                   Samples.channel_image 0%nat nearest).
Proof.
  split; [right; apply le_n |].
  apply (@distort_image_rejects_channels Q nat PyFloat_Q Ref.nearest_neighbour
           Ref.sample_camera Samples.channel_image 0%nat nearest).
  right. apply le_n.
Defined.

Lemma identity_camera_lookup (interpolation : Z) (i j : nat) :
  to_cv nearest = Ok interpolation -> (i < 2)%nat -> (j < 3)%nat ->
  Ref.nearest_neighbour interpolation Ref.sample_image
    (fst (Ref.undistorted_pixel Samples.identity_camera j i))
    (snd (Ref.undistorted_pixel Samples.identity_camera j i))
  = nth_error (data Ref.sample_image) (i * 3 + j).
Proof.
  intros _ Hi Hj.
  destruct i as [| [| i]]; [| | lia];
    (destruct j as [| [| [| j]]]; [| | | lia]); vm_compute; reflexivity.
Defined.

Lemma distort_image_identity_witness :
  Camera._im_size Samples.identity_camera = (3, 2)%nat /\
  shape Ref.sample_image = [2; 3]%nat /\
  wf Ref.sample_image /\
  (forall interpolation i j,
      to_cv nearest = Ok interpolation -> (i < 2)%nat -> (j < 3)%nat ->
      Ref.nearest_neighbour interpolation Ref.sample_image
        (fst (Ref.undistorted_pixel Samples.identity_camera j i))
        (snd (Ref.undistorted_pixel Samples.identity_camera j i))
      = nth_error (data Ref.sample_image) (i * 3 + j)) /\
  distort_image Ref.nearest_neighbour Samples.identity_camera Ref.sample_image
                7%nat nearest
  = Ok Ref.sample_image.
Proof.
  split; [reflexivity |]. split; [reflexivity |]. split; [reflexivity |].
  split; [exact identity_camera_lookup |].
  apply (@distort_image_identity Q nat PyFloat_Q Ref.nearest_neighbour
           Samples.identity_camera Ref.sample_image 7%nat nearest 3%nat 2%nat
           eq_refl eq_refl eq_refl identity_camera_lookup).
Defined.

Lemma outside_camera_lookup (interpolation : Z) (i j : nat) :
  to_cv nearest = Ok interpolation -> (i < 2)%nat -> (j < 3)%nat ->
  Ref.nearest_neighbour interpolation Ref.sample_image
    (fst (Ref.undistorted_pixel Samples.outside_camera j i))
    (snd (Ref.undistorted_pixel Samples.outside_camera j i))
  = None.
Proof.
  intros _ Hi Hj.
  destruct i as [| [| i]]; [| | lia];
    (destruct j as [| [| [| j]]]; [| | | lia]); vm_compute; reflexivity.
Defined.

Lemma distort_image_all_outliers_witness :
  Camera._im_size Samples.outside_camera = (3, 2)%nat /\
  shape Ref.sample_image = [2; 3]%nat /\
  wf Ref.sample_image /\
  (forall interpolation i j,
      to_cv nearest = Ok interpolation -> (i < 2)%nat -> (j < 3)%nat ->
      Ref.nearest_neighbour interpolation Ref.sample_image
        (fst (Ref.undistorted_pixel Samples.outside_camera j i))
        (snd (Ref.undistorted_pixel Samples.outside_camera j i))
      = None) /\
  distort_image Ref.nearest_neighbour Samples.outside_camera Ref.sample_image
                7%nat nearest
  = Ok (mk (shape Ref.sample_image)
           (repeat 7%nat (List.length (data Ref.sample_image)))).
Proof.
  split; [reflexivity |]. split; [reflexivity |]. split; [reflexivity |].
  split; [exact outside_camera_lookup |].
  apply (@distort_image_all_outliers Q nat PyFloat_Q Ref.nearest_neighbour
           Samples.outside_camera Ref.sample_image 7%nat nearest 3%nat 2%nat
           eq_refl eq_refl eq_refl outside_camera_lookup).
Defined.

End MoreWitnesses.

Section ValidateWitnesses.

Import Validate.

Lemma validate_dict_first_failure_witness :
  let validate := validate_collection Samples.isinstance Samples.py_eq in
  let ok := [("type", VType Samples.c_str)]%string in
  let c_items := [("type", VAtom (Samples.SStr "pinhole"))]%string in
  Forall (fun kt => exists c, getitem c_items (fst kt) = Some c
                              /\ validate (snd kt) c = Returns)
         ok /\
  (forall rest,
      validate (VDict (ok ++ rest)) (VDict c_items)
      = validate (VDict rest) (VDict c_items)) /\
  (forall k t rest,
      getitem c_items k = None ->
      validate (VDict (ok ++ (k, t) :: rest)) (VDict c_items)
      = Raises (KeyError k)).
Proof.
  intros validate ok c_items.
  assert (Hok : Forall (fun kt => exists c, getitem c_items (fst kt) = Some c
                                            /\ validate (snd kt) c = Returns)
                       ok).
  { constructor; [| constructor].
    exists (VAtom (Samples.SStr "pinhole")). split; reflexivity. }
  split; [exact Hok |].
  exact (@validate_dict_first_failure Samples.cls Samples.scalar
           Samples.isinstance Samples.py_eq ok c_items Hok).
Defined.

Lemma validate_list_items_witness :
  let validate := validate_collection Samples.isinstance Samples.py_eq in
  let t0 := VType Samples.c_int in
  let ts := [VType Samples.c_str] in
  let items := [VAtom (Samples.SInt 640); VAtom (Samples.SInt 480)] in
  items <> [] /\
  (validate (VList (t0 :: ts)) (VList items) = Returns <->
   Forall (fun c => validate t0 c = Returns) items) /\
  validate (VList (t0 :: ts)) (VList items)
    = validate (VList [t0]) (VList items) /\
  (forall template : list Samples.value,
      validate (VList template) (VList [])
      = if Samples.py_eq (VList []) (VList template) then Returns
        else Raises (ValueError (VList []) (VList template))).
Proof.
  intros validate t0 ts items.
  split; [discriminate |].
  apply (@validate_list_items Samples.cls Samples.scalar
           Samples.isinstance Samples.py_eq t0 ts items).
  discriminate.
Defined.

Lemma validate_key_error_key_witness :
  validate_collection Samples.isinstance Samples.py_eq
    Samples.template (VDict []) = Raises (KeyError "type") /\
  In "type"%string (template_keys Samples.template).
Proof.
  split; [reflexivity |].
  apply (@validate_key_error_key Samples.cls Samples.scalar
           Samples.isinstance Samples.py_eq Samples.template (VDict [])
           "type"%string).
  reflexivity.
Defined.

(** The sample configuration is accepted by the sample template: its
    extra key "comment" and the order of its keys do not matter, and
    the template value [None] accepts the name. *)
Example validate_sample_config :
  validate_collection Samples.isinstance Samples.py_eq
    Samples.template Samples.config = Returns.
Proof. reflexivity. Qed.

End ValidateWitnesses.
